(** * Hugging Face NLP playground: the two Flask demos [flask.py] and [flask2.py]

    A shallow embedding of the request handler [index] and of the lazy
    pipeline cache [get_pipeline] of both files, with the properties of
    the specification stated over it.

    - Python [str] values are sequences of Unicode code points.
    - The [transformers] library, [traceback.format_exc] and [repr] are
      outside the repository: they are the fields of the class [Extern].
      A pipeline constructor or a pipeline call may return or raise, and
      its answer may depend on everything that happened before.
    - Module-level dictionaries ([pipelines_cache], [pipelines],
      [MODEL_CHOICES]) live in an explicit state that is threaded through
      the requests, together with a trace of the external calls and of the
      log records.
    - A function that can raise returns an [outcome]; the state survives
      the exception, as the Python objects do. *)

From Stdlib Require Import Ascii String.
From stdpp Require Import gmap list strings fin_maps.

Set Default Proof Using "Type".
Local Open Scope N_scope.

(** ** Python strings *)

Module Py.

(** A [str] is a list of code points. *)
Abbreviation pystr := (list N).

(** A literal of the source, read as code points. *)
Definition lit (s : string) : pystr :=
  (λ a, N_of_ascii a) <$> list_ascii_of_string s.
#[global] Arguments lit : simpl never.

Definition comma : N := 44.
Definition dquote : N := 34.
Definition newline : N := 10.

(** [str.isspace] on one code point (CPython's [_PyUnicode_IsWhitespace]). *)
Definition isspace (c : N) : bool :=
  ((9 <=? c) && (c <=? 13)) || ((28 <=? c) && (c <=? 32))
  || (c =? 133) || (c =? 160) || (c =? 5760)
  || ((8192 <=? c) && (c <=? 8202))
  || (c =? 8232) || (c =? 8233) || (c =? 8239) || (c =? 8287)
  || (c =? 12288).

(** Line boundaries of [str.splitlines]. *)
Definition islinebreak (c : N) : bool :=
  ((10 <=? c) && (c <=? 13)) || ((28 <=? c) && (c <=? 30))
  || (c =? 133) || (c =? 8232) || (c =? 8233).

Fixpoint lstrip (s : pystr) : pystr :=
  match s with
  | [] => []
  | c :: r => if isspace c then lstrip r else s
  end.

Definition rstrip (s : pystr) : pystr := rev (lstrip (rev s)).

(** [s.strip()] *)
Definition strip (s : pystr) : pystr := rstrip (lstrip s).

(** Truth value of a [str]: non-empty. *)
Definition truthy (s : pystr) : bool :=
  match s with [] => false | _ :: _ => true end.

(** A string made of whitespace only (the empty string included). *)
Definition blank (s : pystr) : bool := forallb isspace s.

(** [s.split(sep)] for a one-character separator. *)
Fixpoint split (sep : N) (s : pystr) : list pystr :=
  match s with
  | [] => [[]]
  | c :: r =>
      if c =? sep then [] :: split sep r
      else match split sep r with
           | f :: fs => (c :: f) :: fs
           | [] => [[c]]
           end
  end.

(** [sep.join(l)] for a one-character separator. *)
Fixpoint join (sep : N) (l : list pystr) : pystr :=
  match l with
  | [] => []
  | [f] => f
  | f :: fs => f ++ sep :: join sep fs
  end.

(** [s.splitlines()]: the lines without their boundaries; CR LF is one
    boundary; no empty last line. *)
Fixpoint splitlines_from (cur : pystr) (s : pystr) : list pystr :=
  match s with
  | [] => match cur with [] => [] | _ => [rev cur] end
  | c :: r =>
      if islinebreak c then
        rev cur ::
          match r with
          | c' :: r' =>
              if (c =? 13) && (c' =? 10) then splitlines_from [] r'
              else splitlines_from [] r
          | [] => splitlines_from [] r
          end
      else splitlines_from (c :: cur) r
  end.

Definition splitlines (s : pystr) : list pystr := splitlines_from [] s.

(** The slice [l[-n:]], for n > 0: the last [n] elements, all of them when there
    are fewer. *)
Definition last_n {A} (n : nat) (l : list A) : list A :=
  drop (length l - n)%nat l.

End Py.
Import Py.

(** ** Exceptions, values and the external world *)

(** The exceptions of the program: [KeyError] comes from subscripting a
    dictionary, [ValueError] from the [raise] statements, [TypeError] from
    an ill-typed [+]; [LibError cls msg] is any other [Exception] raised by
    the external library, [msg] being its [str]. *)
Inductive exn :=
| KeyError (key : option pystr)
| ValueError (msg : pystr)
| TypeError (msg : pystr)
| LibError (cls : string) (msg : pystr).

Inductive outcome (A : Type) :=
| Ok (a : A)
| Raise (e : exn).
Arguments Ok {A} a.
Arguments Raise {A} e.

(** The three call conventions of a pipeline object. *)
Inductive call_args :=
| Plain (text : pystr)
| Summarize (text : pystr) (max_length min_length : Z) (do_sample : bool)
| ZeroShot (text : pystr) (candidate_labels : list pystr).

Inductive level := INFO | ERROR.

(** What a request leaves behind, besides the dictionaries: calls of
    [get_pipeline], pipeline constructions, pipeline invocations and log
    records, oldest first. *)
Inductive event (P : Type) :=
| EvGetPipeline (task : option pystr)
| EvLoad (task model : pystr) (device : option Z)
| EvCall (p : P) (args : call_args)
| EvLog (lvl : level) (msg : pystr).
Arguments EvGetPipeline {P} task.
Arguments EvLoad {P} task model device.
Arguments EvCall {P} p args.
Arguments EvLog {P} lvl msg.

(** Python values the handler computes with. *)
Inductive value (O : Type) :=
| VNone
| VStr (s : pystr)
| VList (l : list pystr)
| VBool (b : bool)
| VOut (o : O).
Arguments VNone {O}.
Arguments VStr {O} s.
Arguments VList {O} l.
Arguments VBool {O} b.
Arguments VOut {O} o.

(** Code outside the repository. [hf_pipeline h task model device] is
    [transformers.pipeline(task, model=model, device=device)] called after
    the history [h]; [hf_call h p args] is the call [p(...)]. *)
Class Extern := {
  Pipeline : Type;
  Output : Type;
  hf_pipeline : list (event Pipeline) → pystr → pystr → option Z → outcome Pipeline;
  hf_call : list (event Pipeline) → Pipeline → call_args → outcome Output;
  format_exc : exn → pystr;
  repr : option pystr → pystr
}.

(** [str(e)] *)
Definition exn_str `{Extern} (e : exn) : pystr :=
  match e with
  | KeyError k => repr k
  | ValueError m | TypeError m | LibError _ m => m
  end.

(** The operands of the one [+] chain of the source are strings and a list
    of strings. *)
Inductive seq_value :=
| SStr (s : pystr)
| SList (l : list pystr).

(** The [TypeError] of a [+] between two different sequence types. *)
Definition concat_error (left right : string) : exn :=
  TypeError (lit "can only concatenate " ++ lit left ++ lit " (not "
               ++ dquote :: lit right ++ dquote :: lit ") to " ++ lit left).

(** The binary [+] on them: concatenation within one sequence type,
    [TypeError] across. *)
Definition py_add (a b : seq_value) : outcome seq_value :=
  match a, b with
  | SStr x, SStr y => Ok (SStr (x ++ y))
  | SList x, SList y => Ok (SList (x ++ y))
  | SStr _, SList _ => Raise (concat_error "str" "list")
  | SList _, SStr _ => Raise (concat_error "list" "str")
  end.

Definition seq_to_value {O} (v : seq_value) : value O :=
  match v with SStr s => VStr s | SList l => VList l end.

(** ** State and exceptions *)

Definition M (S A : Type) : Type := S → outcome A * S.

#[export] Instance M_ret {S} : MRet (M S) := λ A a s, (Ok a, s).
#[export] Instance M_bind {S} : MBind (M S) := λ A B f m s,
  match m s with
  | (Ok a, s') => f a s'
  | (Raise e, s') => (Raise e, s')
  end.

Definition raise {S A} (e : exn) : M S A := λ s, (Raise e, s).
Definition get_state {S} : M S S := λ s, (Ok s, s).
Definition modify {S} (f : S → S) : M S () := λ s, (Ok (), f s).
Definition lift_outcome {S A} (o : outcome A) : M S A := λ s, (o, s).

(** [try: body except Exception as e: handler e] *)
Definition try_except {S A} (body : M S A) (handler : exn → M S A) : M S A :=
  λ s, match body s with
       | (Ok a, s') => (Ok a, s')
       | (Raise e, s') => handler e s'
       end.

(** ** Requests and pages *)

Inductive http_method := GET | HEAD | POST.

(** [request.form]: a field is absent or holds a string. *)
Record form := {
  f_task : option pystr;
  f_input_text : option pystr;
  f_labels : option pystr;
  f_model_override : option pystr
}.

Record request := { method : http_method; req_form : form }.

(** [render_template_string(template, **context)]: the page is its
    keyword arguments, in the order of the call. *)
Abbreviation page O := (list (string * value O)).

Fixpoint ctx_get {O} (k : string) (ctx : page O) : option (value O) :=
  match ctx with
  | [] => None
  | (k', v) :: r => if String.eqb k k' then Some v else ctx_get k r
  end.

Definition opt_value {O} (o : option pystr) : value O :=
  match o with Some s => VStr s | None => VNone end.

(** The candidate labels of both files:
    [[l.strip() for l in candidate_labels.split(",") if l.strip()]] *)
Definition parse_labels (candidate_labels : pystr) : list pystr :=
  flat_map (λ l, if truthy (strip l) then [strip l] else [])
           (split comma candidate_labels).

Definition sentiment_analysis : pystr := lit "sentiment-analysis".
Definition summarization : pystr := lit "summarization".
Definition zero_shot_classification : pystr := lit "zero-shot-classification".

(** ** First variant: [flask.py] *)

Module Flask1.
Section WithExtern.
Context `{Extern}.

(** [selected_task] is [request.form.get("task")]: a string or [None];
    both can be looked up in the dictionary. *)
Record state := {
  pipelines_cache : gmap (option pystr) Pipeline;
  trace : list (event Pipeline)
}.

Definition init : state := {| pipelines_cache := ∅; trace := [] |}.

Definition emit (ev : event Pipeline) : M state () :=
  modify (λ s, {| pipelines_cache := pipelines_cache s; trace := trace s ++ [ev] |}).

(** [pipelines_cache[task] = p] *)
Definition cache_set (task : option pystr) (p : Pipeline) : M state () :=
  modify (λ s, {| pipelines_cache := <[task := p]> (pipelines_cache s);
                  trace := trace s |}).

(** [pipeline(task, model=model)] *)
Definition pipeline (task model : pystr) : M state Pipeline :=
  s ← get_state;
  emit (EvLoad task model None);;
  lift_outcome (hf_pipeline (trace s) task model None).

(** [nlp(...)] *)
Definition call (nlp : Pipeline) (args : call_args) : M state (value Output) :=
  s ← get_state;
  emit (EvCall nlp args);;
  out ← lift_outcome (hf_call (trace s) nlp args);
  mret (VOut out).

Definition get_pipeline (task : option pystr) : M state Pipeline :=
  emit (EvGetPipeline task);;
  s ← get_state;
  match pipelines_cache s !! task with
  | None =>
      if bool_decide (task = Some sentiment_analysis) then
        p ← pipeline sentiment_analysis
              (lit "distilbert-base-uncased-finetuned-sst-2-english");
        cache_set task p
      else if bool_decide (task = Some summarization) then
        p ← pipeline summarization (lit "sshleifer/distilbart-cnn-12-6");
        cache_set task p
      else if bool_decide (task = Some zero_shot_classification) then
        p ← pipeline zero_shot_classification (lit "facebook/bart-large-mnli");
        cache_set task p
      else mret ()
  | Some _ => mret ()
  end;;
  s ← get_state;
  match pipelines_cache s !! task with
  | Some p => mret p
  | None => raise (KeyError task)
  end.

(** The [if]/[elif] chain on [selected_task] that runs the pipeline; its
    value is [result], which stays [None] when no branch is taken. *)
Definition invoke (selected_task : option pystr) (input_text candidate_labels : pystr)
  (nlp : Pipeline) : M state (value Output) :=
  if bool_decide (selected_task = Some sentiment_analysis) then
    call nlp (Plain input_text)
  else if bool_decide (selected_task = Some summarization) then
    call nlp (Summarize input_text 80 20 false)
  else if bool_decide (selected_task = Some zero_shot_classification) then
    let labels := parse_labels candidate_labels in
    call nlp (ZeroShot input_text labels)
  else mret VNone.

(** The body of [if request.method == "POST":] once the fields are read;
    its value is [result]. *)
Definition run (selected_task : option pystr) (input_text candidate_labels : pystr)
  : M state (value Output) :=
  if truthy (strip input_text) then
    nlp ← get_pipeline selected_task;
    invoke selected_task input_text candidate_labels nlp
  else mret VNone.

Definition render_template_string
  (result input_text selected_task candidate_labels : value Output)
  : page Output :=
  [("result", result); ("input_text", input_text);
   ("selected_task", selected_task); ("candidate_labels", candidate_labels)]%string.

Definition index (req : request) : M state (page Output) :=
  match method req with
  | POST =>
      let selected_task := f_task (req_form req) in
      let input_text := default [] (f_input_text (req_form req)) in
      let candidate_labels := default [] (f_labels (req_form req)) in
      result ← run selected_task input_text candidate_labels;
      mret (render_template_string result (VStr input_text)
              (opt_value selected_task) (VStr candidate_labels))
  | _ =>
      mret (render_template_string VNone (VStr []) (VStr sentiment_analysis)
              (VStr []))
  end.

End WithExtern.
End Flask1.

(** ** Second variant: [flask2.py] *)

Module Flask2.
Section WithExtern.
Context `{Extern}.

(** [selected_task] is always a string here (see [index]). *)
Record state := {
  pipelines : gmap pystr Pipeline;
  MODEL_CHOICES : gmap pystr pystr;
  trace : list (event Pipeline)
}.

Definition default_models : gmap pystr pystr :=
  <[sentiment_analysis := lit "distilbert-base-uncased-finetuned-sst-2-english"]>
  (<[summarization := lit "sshleifer/distilbart-cnn-12-6"]>
  (<[zero_shot_classification := lit "facebook/bart-large-mnli"]> ∅)).

Definition init : state :=
  {| pipelines := ∅; MODEL_CHOICES := default_models; trace := [] |}.

Definition emit (ev : event Pipeline) : M state () :=
  modify (λ s, {| pipelines := pipelines s; MODEL_CHOICES := MODEL_CHOICES s;
                  trace := trace s ++ [ev] |}).

(** [logging.info(msg)], [logging.error(msg)] *)
Definition log (lvl : level) (msg : pystr) : M state () := emit (EvLog lvl msg).

(** [pipelines[task] = p] *)
Definition cache_set (task : pystr) (p : Pipeline) : M state () :=
  modify (λ s, {| pipelines := <[task := p]> (pipelines s);
                  MODEL_CHOICES := MODEL_CHOICES s; trace := trace s |}).

(** [MODEL_CHOICES[task] = model] *)
Definition set_model (task model : pystr) : M state () :=
  modify (λ s, {| pipelines := pipelines s;
                  MODEL_CHOICES := <[task := model]> (MODEL_CHOICES s);
                  trace := trace s |}).

(** [pipeline(task, model=model, device=-1)] *)
Definition pipeline (task model : pystr) : M state Pipeline :=
  s ← get_state;
  emit (EvLoad task model (Some (-1)%Z));;
  lift_outcome (hf_pipeline (trace s) task model (Some (-1)%Z)).

(** [nlp(...)] *)
Definition call (nlp : Pipeline) (args : call_args) : M state (value Output) :=
  s ← get_state;
  emit (EvCall nlp args);;
  out ← lift_outcome (hf_call (trace s) nlp args);
  mret (VOut out).

(** The part of [get_pipeline] after a model name was found. *)
Definition load (task model : pystr) : M state Pipeline :=
  log INFO (lit "Loading pipeline for task " ++ task ++ lit " using model "
              ++ model ++ lit " ...");;
  p ← try_except
        (if bool_decide (task = sentiment_analysis) then
           pipeline sentiment_analysis model
         else if bool_decide (task = summarization) then
           pipeline summarization model
         else if bool_decide (task = zero_shot_classification) then
           pipeline zero_shot_classification model
         else raise (ValueError (lit "Unsupported task")))
        (λ e, log ERROR (lit "Failed to load pipeline:" ++ newline :: format_exc e);;
              raise e);
  cache_set task p;;
  log INFO (lit "Pipeline loaded.");;
  mret p.

(** The [from transformers import pipeline] at its head is taken to
    succeed: the library is installed. *)
Definition get_pipeline (task : pystr) : M state Pipeline :=
  emit (EvGetPipeline (Some task));;
  s ← get_state;
  match pipelines s !! task with
  | Some p => mret p
  | None =>
      match MODEL_CHOICES s !! task with
      | Some model =>
          if truthy model then load task model
          else raise (ValueError (lit "Unknown task: " ++ task))
      | None => raise (ValueError (lit "Unknown task: " ++ task))
      end
  end.

(** The [if]/[elif]/[else] chain on [selected_task] that runs the pipeline;
    its value is [out]. *)
Definition invoke (selected_task input_text candidate_labels : pystr)
  (nlp : Pipeline) : M state (value Output) :=
  if bool_decide (selected_task = sentiment_analysis) then
    call nlp (Plain input_text)
  else if bool_decide (selected_task = summarization) then
    call nlp (Summarize input_text 120 20 false)
  else if bool_decide (selected_task = zero_shot_classification) then
    let labels := parse_labels candidate_labels in
    match labels with
    | [] => raise (ValueError
                     (lit "Zero-shot requires at least one comma-separated label."))
    | _ :: _ => call nlp (ZeroShot input_text labels)
    end
  else raise (ValueError (lit "Unsupported task: " ++ selected_task)).

(** The body of the [try] of [index]; its value is [out]. *)
Definition index_try (selected_task input_text candidate_labels model_override : pystr)
  : M state (value Output) :=
  (if truthy model_override then set_model selected_task model_override
   else mret ());;
  nlp ← get_pipeline selected_task;
  invoke selected_task input_text candidate_labels nlp.

(** The body of [except Exception as e:]; its value is [error]. *)
Definition index_except (e : exn) : M state (value Output) :=
  log ERROR (lit "Error during pipeline execution:" ++ newline :: format_exc e);;
  a ← lift_outcome (py_add (SStr (exn_str e)) (SStr [newline; newline]));
  b ← lift_outcome (py_add a (SList (last_n 10 (splitlines (format_exc e)))));
  mret (seq_to_value b).

(** The body of [if request.method == "POST":] once the fields are read;
    its value is the pair of [result] and [error]. *)
Definition run (selected_task input_text candidate_labels model_override : pystr)
  : M state (value Output * value Output) :=
  if negb (truthy input_text) then
    mret (VNone, VStr (lit "Please provide some input text."))
  else
    try_except
      (out ← index_try selected_task input_text candidate_labels model_override;
       mret (out, VNone))
      (λ e, error ← index_except e; mret (VNone, error)).

Definition render_template_string
  (result error input_text selected_task candidate_labels model_override busy
     : value Output) : page Output :=
  [("result", result); ("error", error); ("input_text", input_text);
   ("selected_task", selected_task); ("candidate_labels", candidate_labels);
   ("model_override", model_override); ("busy", busy)]%string.

(** [request.form.get("task") or "sentiment-analysis"] *)
Definition task_or_default (t : option pystr) : pystr :=
  match t with
  | Some x => if truthy x then x else sentiment_analysis
  | None => sentiment_analysis
  end.

Definition index (req : request) : M state (page Output) :=
  match method req with
  | POST =>
      let selected_task := task_or_default (f_task (req_form req)) in
      let input_text := strip (default [] (f_input_text (req_form req))) in
      let candidate_labels := strip (default [] (f_labels (req_form req))) in
      let model_override := strip (default [] (f_model_override (req_form req))) in
      re ← run selected_task input_text candidate_labels model_override;
      mret (render_template_string re.1 re.2 (VStr input_text) (VStr selected_task)
              (VStr candidate_labels) (VStr model_override) (VBool false))
  | _ =>
      mret (render_template_string VNone VNone (VStr []) (VStr sentiment_analysis)
              (VStr []) (VStr []) (VBool false))
  end.

End WithExtern.
End Flask2.

(** ** The candidate labels as the specification words them *)

(** The list the specification describes, word for word: the fields
    between commas, trimmed, the empty ones dropped, then duplicates dropped
    with the first occurrence kept. *)
Fixpoint dedup_first (l : list pystr) : list pystr :=
  match l with
  | [] => []
  | x :: r => x :: filter (λ y, y ≠ x) (dedup_first r)
  end.

Definition trimmed_fields (candidate_labels : pystr) : list pystr :=
  filter (λ l, l ≠ []) (strip <$> split comma candidate_labels).

Definition labels_as_specified (candidate_labels : pystr) : list pystr :=
  dedup_first (trimmed_fields candidate_labels).

(** ** Serving several requests, and what the properties speak of *)

(** The fixed set of tasks. *)
Definition supported (t : pystr) : bool :=
  bool_decide (t = sentiment_analysis) || bool_decide (t = summarization)
  || bool_decide (t = zero_shot_classification).

Definition is_load {P} (ev : event P) : bool :=
  match ev with EvLoad _ _ _ => true | _ => false end.

Definition is_call {P} (ev : event P) : bool :=
  match ev with EvCall _ _ => true | _ => false end.

(** Events that touch no model: neither a construction nor an invocation. *)
Definition quiet {P} (evs : list (event P)) : bool :=
  forallb (λ ev, negb (is_load ev || is_call ev)) evs.

(** Events among which no pipeline is invoked. *)
Definition no_call {P} (evs : list (event P)) : bool :=
  forallb (λ ev, negb (is_call ev)) evs.

(** The request with another [task] field. *)
Definition set_task (t : option pystr) (req : request) : request :=
  {| method := method req;
     req_form := {| f_task := t;
                    f_input_text := f_input_text (req_form req);
                    f_labels := f_labels (req_form req);
                    f_model_override := f_model_override (req_form req) |} |}.

(** The response shows the error message [msg]. *)
Definition shows_error {O} (o : outcome (page O)) (msg : pystr) : Prop :=
  ∃ pg, o = Ok pg ∧ ctx_get "error" pg = Some (VStr msg).

(** The response is a page that shows some error message. *)
Definition renders_error {O} (o : outcome (page O)) : Prop :=
  ∃ msg, shows_error o msg.

Module Serve1.
Section WithExtern.
Context `{Extern}.

(** The process after the requests [reqs], whatever each of them answered. *)
Definition serve (reqs : list request) (s : Flask1.state) : Flask1.state :=
  foldl (λ s r, (Flask1.index r s).2) s reqs.

(** The state with one more trace event. *)
Definition logged (ev : event Pipeline) (s : Flask1.state) : Flask1.state :=
  (Flask1.emit ev s).2.

(** Every key of the cache is one of the three tasks. *)
Definition cache_ok (s : Flask1.state) : Prop :=
  map_Forall (λ k _, ∃ t, k = Some t ∧ supported t = true) (Flask1.pipelines_cache s).

End WithExtern.
End Serve1.

Module Serve2.
Section WithExtern.
Context `{Extern}.

(** The process after the requests [reqs], whatever each of them answered. *)
Definition serve (reqs : list request) (s : Flask2.state) : Flask2.state :=
  foldl (λ s r, (Flask2.index r s).2) s reqs.

(** Every key of the cache is one of the three tasks. *)
Definition cache_ok (s : Flask2.state) : Prop :=
  map_Forall (λ t _, supported t = true) (Flask2.pipelines s).

(** The first log record of a construction. *)
Definition loading_msg (task model : pystr) : pystr :=
  lit "Loading pipeline for task " ++ task ++ lit " using model " ++ model
    ++ lit " ...".

(** The state once [index] has dealt with the override field. *)
Definition after_override (task model_override : pystr) (s : Flask2.state)
  : Flask2.state :=
  ((if truthy model_override then Flask2.set_model task model_override
    else mret ()) s).2.

(** The state with one more trace event. *)
Definition logged (ev : event Pipeline) (s : Flask2.state) : Flask2.state :=
  (Flask2.emit ev s).2.

(** The log record of the [except] clause of [index]. *)
Definition exec_error_event (e : exn) : event Pipeline :=
  EvLog ERROR (lit "Error during pipeline execution:" ++ newline :: format_exc e).

(** The request stores a model name for [task] in [MODEL_CHOICES]. *)
Definition overrides (task : pystr) (req : request) : bool :=
  match method req with
  | POST =>
      truthy (strip (default [] (f_input_text (req_form req))))
      && truthy (strip (default [] (f_model_override (req_form req))))
      && bool_decide (Flask2.task_or_default (f_task (req_form req)) = task)
  | _ => false
  end.

End WithExtern.
End Serve2.

(** ** Two external worlds to run the handlers in *)

(** Every construction and every call succeeds; a pipeline object is
    numbered by the length of the history at its construction. *)
Definition obliging : Extern := {|
  Pipeline := nat;
  Output := pystr;
  hf_pipeline := λ h task model device, Ok (length h);
  hf_call := λ h p args, Ok (lit "ok");
  format_exc := λ e, lit "Traceback (most recent call last):";
  repr := λ k, match k with Some t => 39 :: t ++ [39] | None => lit "None" end
|}.

(** No model can be fetched; calls would fail too. *)
Definition offline : Extern := {|
  Pipeline := nat;
  Output := pystr;
  hf_pipeline := λ h task model device, Raise (LibError "OSError" (lit "no network"));
  hf_call := λ h p args, Raise (LibError "RuntimeError" (lit "no model"));
  format_exc := λ e, lit "Traceback (most recent call last):";
  repr := λ k, match k with Some t => 39 :: t ++ [39] | None => lit "None" end
|}.

Definition post (task input_text labels model_override : option pystr) : request :=
  {| method := POST;
     req_form := {| f_task := task; f_input_text := input_text;
                    f_labels := labels; f_model_override := model_override |} |}.

Definition get : request :=
  {| method := GET;
     req_form := {| f_task := None; f_input_text := None;
                    f_labels := None; f_model_override := None |} |}.


(** ** Counting on traces *)

(** How many elements of [l] satisfy [f]. *)
Definition count_if {A} (f : A → bool) (l : list A) : nat :=
  length (List.filter f l).

(** The event is a construction for the task [t]. *)
Definition loads_task {P} (t : pystr) (ev : event P) : bool :=
  match ev with EvLoad t' _ _ => bool_decide (t' = t) | _ => false end.

(** Events without any construction. *)
Definition no_load {P} (evs : list (event P)) : bool :=
  forallb (λ ev, negb (is_load ev)) evs.

(** Events without a construction for the task [t]. *)
Definition no_load_of {P} (t : pystr) (evs : list (event P)) : bool :=
  forallb (λ ev, negb (loads_task t ev)) evs.

(** Events whose constructions, if any, are for the task [t]. *)
Definition only_loads {P} (t : pystr) (evs : list (event P)) : bool :=
  forallb (λ ev, implb (is_load ev) (loads_task t ev)) evs.

(** The same for a [task] field that may be absent. *)
Definition only_loads_key {P} (k : option pystr) (evs : list (event P)) : bool :=
  match k with Some t => only_loads t evs | None => no_load evs end.

(** Every supported task has a non-empty model name in [MODEL_CHOICES]. *)
Definition models_ok `{Extern} (s : Flask2.state) : Prop :=
  ∀ t, supported t = true → ∃ m, Flask2.MODEL_CHOICES s !! t = Some m ∧ m ≠ [].

(** The request with its three text fields trimmed. *)
Definition strip_fields (req : request) : request :=
  {| method := method req;
     req_form := {| f_task := f_task (req_form req);
                    f_input_text := strip <$> f_input_text (req_form req);
                    f_labels := strip <$> f_labels (req_form req);
                    f_model_override := strip <$> f_model_override (req_form req) |} |}.

(** The request with other candidate labels. *)
Definition set_labels (l : option pystr) (req : request) : request :=
  {| method := method req;
     req_form := {| f_task := f_task (req_form req);
                    f_input_text := f_input_text (req_form req);
                    f_labels := l;
                    f_model_override := f_model_override (req_form req) |} |}.


(** ** Comparing responses *)

Definition outcome_map {A B} (f : A → B) (o : outcome A) : outcome B :=
  match o with Ok a => Ok (f a) | Raise e => Raise e end.

(** The page without the template variable [k]. *)
Definition page_without {O} (k : string) (pg : page O) : page O :=
  List.filter (λ kv, negb (String.eqb kv.1 k)) pg.


(** ** Proof steps *)

(** Open the operations of [M]. *)
Ltac munfold :=
  unfold mbind, M_bind, mret, M_ret, raise, get_state, modify, lift_outcome,
    try_except in *.

(** Split on every test of the code. *)
Ltac mcases := repeat (case_bool_decide || case_match); simplify_eq/=.

(** * Properties *)

(** ** The model at work *)

Example strip_example : strip (lit "  a b ") = lit "a b".
Proof. reflexivity. Qed.

Example split_example : split comma (lit "a,,b,") = [lit "a"; []; lit "b"; []].
Proof. reflexivity. Qed.

Example splitlines_example :
  splitlines [97; 13; 10; 98; 10; 10; 99; 10] = [[97]; [98]; []; [99]].
Proof. reflexivity. Qed.

Example last_n_example : last_n 2 [1; 2; 3] = [2; 3] ∧ last_n 10 [1; 2; 3] = [1; 2; 3].
Proof. split; reflexivity. Qed.

Example parse_labels_example :
  parse_labels (lit " sports, politics ,, tech ") = [lit "sports"; lit "politics"; lit "tech"].
Proof. reflexivity. Qed.

(** A sentiment request is answered with the output of the one pipeline
    it constructs, in both variants. *)
Example sentiment_request_example :
  (Flask1.index (H:=obliging)
     (post (Some sentiment_analysis) (Some (lit "I love this")) None None)
     Flask1.init).1
  = Ok (Flask1.render_template_string (H:=obliging) (VOut (lit "ok"))
          (VStr (lit "I love this"))
          (VStr sentiment_analysis) (VStr []))
  ∧ (Flask2.index (H:=obliging)
       (post (Some sentiment_analysis) (Some (lit " I love this ")) None None)
       Flask2.init).1
    = Ok (Flask2.render_template_string (H:=obliging) (VOut (lit "ok")) VNone
            (VStr (lit "I love this")) (VStr sentiment_analysis) (VStr []) (VStr [])
            (VBool false)).
Proof. split; vm_compute; reflexivity. Qed.

(** ** Facts about [strip] and [split] *)

Section PyFacts.
Implicit Types (s f : pystr) (c : N).

Lemma lstrip_nil s : lstrip s = [] ↔ blank s = true.
Proof.
  induction s as [|c r IH]; simpl; [done|].
  destruct (isspace c); simpl; [done|]. split; discriminate.
Qed.

Lemma lstrip_head c r s : lstrip s = c :: r → isspace c = false.
Proof.
  induction s as [|a t IH]; simpl; [discriminate|].
  destruct (isspace a) eqn:Ha; [done|]. by intros [= <- _].
Qed.

Lemma lstrip_app s t :
  lstrip (s ++ t) = if blank s then lstrip t else lstrip s ++ t.
Proof.
  induction s as [|c r IH]; simpl; [done|].
  destruct (isspace c); simpl; done.
Qed.

Lemma blank_rev s : blank (rev s) = blank s.
Proof.
  induction s as [|c r IH]; simpl; [done|].
  unfold blank in *. rewrite forallb_app, IH. simpl.
  rewrite andb_true_r. apply andb_comm.
Qed.

Lemma blank_lstrip s : blank (lstrip s) = blank s.
Proof.
  induction s as [|c r IH]; simpl; [done|].
  destruct (isspace c) eqn:Hc; simpl; [done|]. by rewrite Hc.
Qed.

Lemma rstrip_nil s : rstrip s = [] ↔ blank s = true.
Proof.
  unfold rstrip. rewrite <- (blank_rev s), <- lstrip_nil.
  split; intros Hs.
  - apply (f_equal (@rev N)) in Hs. by rewrite rev_involutive in Hs.
  - by rewrite Hs.
Qed.

Lemma strip_nil s : strip s = [] ↔ blank s = true.
Proof. unfold strip. by rewrite rstrip_nil, blank_lstrip. Qed.

(** [if s.strip():] tests that [s] is not whitespace-only. *)
Lemma truthy_strip s : truthy (strip s) = negb (blank s).
Proof.
  destruct (blank s) eqn:Hb; simpl.
  - apply strip_nil in Hb. by rewrite Hb.
  - destruct (strip s) eqn:Hs; [|done].
    apply strip_nil in Hs. congruence.
Qed.

Lemma rstrip_snoc_space s c : isspace c = true → rstrip (s ++ [c]) = rstrip s.
Proof. intros Hc. unfold rstrip. rewrite rev_unit. simpl. by rewrite Hc. Qed.

Lemma strip_cons_space s c : isspace c = true → strip (c :: s) = strip s.
Proof. intros Hc. unfold strip. simpl. by rewrite Hc. Qed.

Lemma strip_snoc_space s c : isspace c = true → strip (s ++ [c]) = strip s.
Proof.
  intros Hc. unfold strip. rewrite lstrip_app. simpl. rewrite Hc.
  destruct (blank s) eqn:Hb.
  - apply lstrip_nil in Hb. by rewrite Hb.
  - by apply rstrip_snoc_space.
Qed.

(** Stripping removes whitespace at both ends and nothing else. *)
Lemma lstrip_decompose s : ∃ w, s = w ++ lstrip s ∧ blank w = true.
Proof.
  induction s as [|c r (w & Hw & Hb)]; simpl; [by exists []|].
  destruct (isspace c) eqn:Hc.
  - exists (c :: w). simpl. rewrite Hc. split; [by f_equal|done].
  - by exists [].
Qed.

Lemma strip_decompose s :
  ∃ w1 w2, s = w1 ++ strip s ++ w2 ∧ blank w1 = true ∧ blank w2 = true.
Proof.
  destruct (lstrip_decompose s) as (w1 & H1 & Hb1).
  destruct (lstrip_decompose (rev (lstrip s))) as (w2 & H2 & Hb2).
  exists w1, (rev w2). split; [|split; [done|by rewrite blank_rev]].
  rewrite H1 at 1. f_equal. unfold strip, rstrip.
  rewrite <- rev_app_distr, <- H2. by rewrite rev_involutive.
Qed.

Lemma strip_head c r s : strip s = c :: r → isspace c = false.
Proof.
  unfold strip, rstrip. intros Hs.
  destruct (lstrip s) as [|a t] eqn:Hl; [discriminate|].
  pose proof (lstrip_head _ _ _ Hl) as Ha.
  assert (Hnb : blank (rev (a :: t)) = false).
  { rewrite blank_rev. simpl. by rewrite Ha. }
  destruct (lstrip_decompose (rev (a :: t))) as (w & Hw & Hb).
  apply (f_equal (@rev N)) in Hw. rewrite rev_involutive, rev_app_distr in Hw.
  rewrite Hs in Hw. simpl in Hw. by injection Hw as -> _.
Qed.

Lemma strip_last s : isspace <$> last (strip s) ≠ Some true.
Proof.
  unfold strip, rstrip.
  destruct (lstrip (rev (lstrip s))) as [|c r] eqn:Hl; [done|].
  apply lstrip_head in Hl. simpl. rewrite last_snoc. simpl. congruence.
Qed.

Lemma isspace_not_comma c : isspace c = true → c ≠ comma.
Proof. by intros Hc ->. Qed.

Lemma split_not_nil sep s : split sep s ≠ [].
Proof.
  destruct s as [|c r]; simpl; [done|].
  destruct (c =? sep); [done|]. by destruct (split sep r).
Qed.

(** [split] is characterised by these two facts: joining gives the string
    back, and no field holds a separator. *)
Lemma join_split sep s : join sep (split sep s) = s.
Proof.
  induction s as [|c r IH]; simpl; [done|].
  destruct (N.eqb_spec c sep) as [->|Hne].
  - pose proof (split_not_nil sep r).
    simpl. destruct (split sep r); [done|]. by rewrite IH.
  - destruct (split sep r) as [|f fs] eqn:Hs; [by destruct (split_not_nil sep r)|].
    simpl in *. destruct fs; simpl in *; by rewrite <- IH.
Qed.

Lemma split_no_sep sep s : Forall (λ f, sep ∉ f) (split sep s).
Proof.
  induction s as [|c r IH]; simpl.
  - repeat constructor. apply not_elem_of_nil.
  - destruct (N.eqb_spec c sep) as [->|Hne].
    + constructor; [apply not_elem_of_nil|done].
    + destruct (split sep r) as [|f fs] eqn:Hs; [by destruct (split_not_nil sep r)|].
      inversion_clear IH. constructor; [|done].
      rewrite elem_of_cons. intros [?|?]; [congruence|done].
Qed.

Lemma split_without_sep sep s : sep ∉ s → split sep s = [s].
Proof.
  induction s as [|c r IH]; simpl; [done|].
  rewrite elem_of_cons. intros Hn.
  destruct (N.eqb_spec c sep) as [->|Hne]; [by destruct Hn; left|].
  rewrite IH; [done|]. intros Hin. apply Hn. by right.
Qed.

Lemma split_snoc sep s c :
  c ≠ sep →
  ∃ fs f, split sep s = fs ++ [f] ∧ split sep (s ++ [c]) = fs ++ [f ++ [c]].
Proof.
  intros Hc. induction s as [|a r (fs & f & H1 & H2)]; simpl.
  - exists [], []. destruct (N.eqb_spec c sep); done.
  - destruct (N.eqb_spec a sep) as [->|Hne].
    + exists ([] :: fs), f. by rewrite H1, H2.
    + rewrite H1, H2. destruct fs as [|g gs]; simpl.
      * by exists [], (a :: f).
      * by exists ((a :: g) :: gs), f.
Qed.

End PyFacts.

(** ** The candidate labels *)

Section Labels.
Implicit Types (s f : pystr) (c : N).

Lemma parse_labels_fields s : parse_labels s = trimmed_fields s.
Proof.
  unfold parse_labels, trimmed_fields.
  induction (split comma s) as [|f fs IH]; [done|].
  rewrite fmap_cons, filter_cons. simpl. rewrite IH.
  by destruct (strip f).
Qed.

Lemma parse_labels_cons_space s c :
  isspace c = true → parse_labels (c :: s) = parse_labels s.
Proof.
  intros Hc. unfold parse_labels. simpl.
  destruct (N.eqb_spec c comma) as [Heq|_]; [by apply isspace_not_comma in Heq|].
  destruct (split comma s) as [|f fs] eqn:Hs; [by destruct (split_not_nil comma s)|].
  simpl. by rewrite strip_cons_space.
Qed.

Lemma parse_labels_snoc_space s c :
  isspace c = true → parse_labels (s ++ [c]) = parse_labels s.
Proof.
  intros Hc. unfold parse_labels.
  destruct (split_snoc comma s c) as (fs & f & -> & ->);
    [by apply isspace_not_comma|].
  rewrite !flat_map_app. simpl. by rewrite strip_snoc_space.
Qed.

Lemma parse_labels_lstrip s : parse_labels (lstrip s) = parse_labels s.
Proof.
  induction s as [|c r IH]; simpl; [done|].
  destruct (isspace c) eqn:Hc; [|done].
  by rewrite IH, parse_labels_cons_space.
Qed.

Lemma parse_labels_rstrip s : parse_labels (rstrip s) = parse_labels s.
Proof.
  unfold rstrip. rewrite <- (rev_involutive s) at 2.
  induction (rev s) as [|c r IH]; simpl; [done|].
  destruct (isspace c) eqn:Hc; [|done].
  by rewrite IH, parse_labels_snoc_space.
Qed.

(** The second file strips the whole field before splitting it; the labels
    are the same. *)
Lemma parse_labels_strip s : parse_labels (strip s) = parse_labels s.
Proof. unfold strip. by rewrite parse_labels_rstrip, parse_labels_lstrip. Qed.

Lemma parse_labels_nil s :
  parse_labels s = [] ↔ forallb blank (split comma s) = true.
Proof.
  unfold parse_labels.
  induction (split comma s) as [|f fs IH]; simpl; [done|].
  rewrite truthy_strip. destruct (blank f); simpl; [done|].
  split; discriminate.
Qed.

(** An empty or whitespace-only field has no label. *)
Lemma parse_labels_blank s : blank s = true → parse_labels s = [].
Proof.
  intros Hb. apply parse_labels_nil.
  rewrite split_without_sep; [simpl; by rewrite Hb|].
  intros Hin. unfold blank in Hb. rewrite forallb_forall in Hb.
  apply list_elem_of_In, Hb in Hin. done.
Qed.

Lemma parse_labels_elem s l :
  l ∈ parse_labels s ↔ l ≠ [] ∧ ∃ f, f ∈ split comma s ∧ l = strip f.
Proof.
  rewrite parse_labels_fields. unfold trimmed_fields.
  rewrite list_elem_of_filter, list_elem_of_fmap. split.
  - intros [Hl (f & -> & Hf)]. eauto.
  - intros [Hl (f & Hf & ->)]. eauto.
Qed.

Lemma strip_no_comma f : comma ∉ f → comma ∉ strip f.
Proof.
  intros Hf Hin. destruct (strip_decompose f) as (w1 & w2 & Heq & _).
  apply Hf. rewrite Heq, !elem_of_app. auto.
Qed.

End Labels.

(** ** Requests that touch nothing *)

Section Untouched.
Context `{Extern}.

(** C10. A GET request to [/] performs no inference and leaves all
    cross-request state unchanged, in both variants: the handler returns the
    empty form and the state after it (cache, [MODEL_CHOICES], trace of
    external calls and log records) is the state before it. *)
Theorem get_request_no_effect (req : request) (s1 : Flask1.state) (s2 : Flask2.state) :
  method req = GET →
  Flask1.index req s1
  = (Ok (Flask1.render_template_string VNone (VStr []) (VStr sentiment_analysis)
           (VStr [])), s1)
  ∧ Flask2.index req s2
    = (Ok (Flask2.render_template_string VNone VNone (VStr [])
             (VStr sentiment_analysis) (VStr []) (VStr []) (VBool false)), s2).
Proof.
  intros Hget. unfold Flask1.index, Flask2.index. by rewrite Hget.
Qed.

(** C1, as amended. For every POST request whose [input_text] is absent,
    empty or whitespace-only, no inference occurs in either variant: the
    state after the request is the state before it, so [get_pipeline] was
    not called, nothing was constructed and nothing invoked. The second
    variant answers with the error "Please provide some input text."; the
    first variant answers with the form, without result and without any
    error message. *)
Theorem blank_input_no_inference (req : request) (s1 : Flask1.state) (s2 : Flask2.state) :
  let fm := req_form req in
  method req = POST →
  blank (default [] (f_input_text fm)) = true →
  Flask1.index req s1
  = (Ok (Flask1.render_template_string VNone (VStr (default [] (f_input_text fm)))
           (opt_value (f_task fm)) (VStr (default [] (f_labels fm)))), s1)
  ∧ Flask2.index req s2
    = (Ok (Flask2.render_template_string VNone
             (VStr (lit "Please provide some input text.")) (VStr [])
             (VStr (Flask2.task_or_default (f_task fm)))
             (VStr (strip (default [] (f_labels fm))))
             (VStr (strip (default [] (f_model_override fm))))
             (VBool false)), s2).
Proof.
  intros fm Hpost Hblank. unfold Flask1.index, Flask2.index. rewrite Hpost.
  fold fm. unfold Flask1.run, Flask2.run.
  rewrite truthy_strip, Hblank. simpl.
  apply strip_nil in Hblank. by rewrite Hblank.
Qed.

End Untouched.

Lemma get_request_no_effect_witness :
  method get = GET
  ∧ Flask1.index (H:=obliging) get Flask1.init
    = (Ok (Flask1.render_template_string VNone (VStr []) (VStr sentiment_analysis)
             (VStr [])), Flask1.init).
Proof.
  split; [reflexivity|].
  apply (get_request_no_effect (H:=obliging) get Flask1.init Flask2.init).
  reflexivity.
Defined.

Lemma blank_input_no_inference_witness :
  blank (lit "  ") = true
  ∧ Flask2.index (H:=obliging) (post None (Some (lit "  ")) None None) Flask2.init
    = (Ok (Flask2.render_template_string VNone
             (VStr (lit "Please provide some input text.")) (VStr [])
             (VStr sentiment_analysis) (VStr []) (VStr []) (VBool false)),
       Flask2.init).
Proof.
  split; [reflexivity|].
  apply (blank_input_no_inference (H:=obliging)
           (post None (Some (lit "  ")) None None) Flask1.init Flask2.init);
    reflexivity.
Defined.

(** C1 as stated fails in the first variant: an empty [input_text] gets a
    page, but the page holds no error message. *)
Lemma blank_input_flask1_no_error :
  ¬ shows_error
      (Flask1.index (H:=obliging) (post (Some sentiment_analysis) (Some []) None None)
         Flask1.init).1
      (lit "Please provide some input text.").
Proof. intros (pg & [= <-] & Herr). discriminate Herr. Qed.


(** ** Running the handlers symbolically *)

Lemma task_names_distinct :
  sentiment_analysis ≠ summarization
  ∧ sentiment_analysis ≠ zero_shot_classification
  ∧ summarization ≠ zero_shot_classification.
Proof. done. Qed.

#[local] Opaque lit.

Lemma supported_false t :
  supported t = false →
  t ≠ sentiment_analysis ∧ t ≠ summarization ∧ t ≠ zero_shot_classification.
Proof.
  unfold supported. rewrite !orb_false_iff, !bool_decide_eq_false. tauto.
Qed.

Lemma supported_true t :
  supported t = true ↔
  t = sentiment_analysis ∨ t = summarization ∨ t = zero_shot_classification.
Proof.
  unfold supported. rewrite !orb_true_iff, !bool_decide_eq_true. tauto.
Qed.

Lemma no_call_app {P} (l1 l2 : list (event P)) :
  no_call (l1 ++ l2) = no_call l1 && no_call l2.
Proof. apply forallb_app. Qed.

Lemma quiet_app {P} (l1 l2 : list (event P)) :
  quiet (l1 ++ l2) = quiet l1 && quiet l2.
Proof. apply forallb_app. Qed.

Lemma quiet_no_call {P} (l : list (event P)) : quiet l = true → no_call l = true.
Proof.
  unfold quiet, no_call. rewrite !forallb_forall. intros Hq ev Hev.
  specialize (Hq ev Hev). by destruct ev.
Qed.

(** ** The cache of the second variant *)

Section Cache2.
Context `{Extern}.
Import Flask2 Serve2.

(** A hit returns the stored object and only records the call. *)
Lemma get_pipeline_hit task s p :
  pipelines s !! task = Some p →
  get_pipeline task s = (Ok p, logged (EvGetPipeline (Some task)) s).
Proof.
  intros Hhit. unfold get_pipeline, logged, emit. munfold. simpl. by rewrite Hhit.
Qed.

(** What a returning [get_pipeline] did: a hit, or one construction whose
    object is now stored under a supported task. *)
Lemma get_pipeline_ok task s p s' :
  get_pipeline task s = (Ok p, s') →
  MODEL_CHOICES s' = MODEL_CHOICES s ∧
  ((pipelines s !! task = Some p ∧ s' = logged (EvGetPipeline (Some task)) s)
   ∨ (pipelines s !! task = None ∧ supported task = true
      ∧ pipelines s' = <[task := p]> (pipelines s)
      ∧ ∃ model,
          MODEL_CHOICES s !! task = Some model ∧ truthy model = true
          ∧ hf_pipeline (trace s ++ [EvGetPipeline (Some task);
                                     EvLog INFO (loading_msg task model)])
              task model (Some (-1)%Z) = Ok p
          ∧ trace s' = trace s ++ [EvGetPipeline (Some task);
                                   EvLog INFO (loading_msg task model);
                                   EvLoad task model (Some (-1)%Z);
                                   EvLog INFO (lit "Pipeline loaded.")])).
Proof.
  unfold get_pipeline, load, pipeline, cache_set, log, logged, emit, loading_msg.
  munfold. simpl. intros Heq. mcases; rewrite <- ?app_assoc in *; simpl in *.
  all: split; [done|].
  all: first [by left | right; rewrite supported_true; eauto 10].
Qed.

(** What a raising [get_pipeline] did: it stored nothing and invoked
    nothing; for a task outside the supported set it did not even try to
    construct, and raised [ValueError]. *)
Lemma get_pipeline_raise task s e s' :
  get_pipeline task s = (Raise e, s') →
  pipelines s' = pipelines s ∧ MODEL_CHOICES s' = MODEL_CHOICES s
  ∧ pipelines s !! task = None
  ∧ ∃ evs, trace s' = trace s ++ evs ∧ no_call evs = true
      ∧ (supported task = false → quiet evs = true ∧ ∃ m, e = ValueError m).
Proof.
  unfold get_pipeline, load, pipeline, cache_set, log, logged, emit.
  munfold. simpl. intros Heq.
  mcases; rewrite <- ?app_assoc in *; simpl in *;
    (split; [done|split; [done|split; [done|]]]);
    eexists; (split; [done|split; [done|]]);
    rewrite ?supported_true; intros Hs; try (exfalso; by eauto); try discriminate;
    eauto.
Qed.


(** The [except] clause of [index] never produces its [error] string: the
    [+] between a [str] and the list of trace lines raises. *)
Lemma index_except_raises e s :
  index_except e s
  = (Raise (concat_error "str" "list"), logged (exec_error_event e) s).
Proof. reflexivity. Qed.

Lemma run_blank task input labels mo s :
  truthy input = false →
  run task input labels mo s
  = (Ok (VNone, VStr (lit "Please provide some input text.")), s).
Proof. intros Hb. unfold run. by rewrite Hb. Qed.

Lemma run_try task input labels mo s :
  truthy input = true →
  run task input labels mo s
  = match index_try task input labels mo s with
    | (Ok out, s1) => (Ok (out, VNone), s1)
    | (Raise e, s1) =>
        (Raise (concat_error "str" "list"), logged (exec_error_event e) s1)
    end.
Proof.
  intros Ht. unfold run. rewrite Ht. simpl. munfold.
  destruct (index_try task input labels mo s) as [[out|e] s1]; [done|].
  by rewrite index_except_raises.
Qed.

Lemma index_try_eq task input labels mo s :
  index_try task input labels mo s
  = match get_pipeline task (after_override task mo s) with
    | (Ok nlp, s1) => invoke task input labels nlp s1
    | (Raise e, s1) => (Raise e, s1)
    end.
Proof.
  unfold index_try, after_override, set_model. munfold.
  by destruct (truthy mo).
Qed.

(** Running the pipeline touches no dictionary; it adds at most the one
    invocation to the trace. *)
Lemma invoke_effect task input labels nlp s :
  let s' := (invoke task input labels nlp s).2 in
  pipelines s' = pipelines s ∧ MODEL_CHOICES s' = MODEL_CHOICES s
  ∧ (s' = s ∨ ∃ args, trace s' = trace s ++ [EvCall nlp args]).
Proof.
  unfold invoke, call, emit. munfold. simpl.
  mcases; (split; [done|split; [done|]]); eauto.
Qed.

Lemma after_override_pipelines task mo s :
  pipelines (after_override task mo s) = pipelines s.
Proof. unfold after_override. by destruct (truthy mo). Qed.

Lemma after_override_trace task mo s :
  trace (after_override task mo s) = trace s.
Proof. unfold after_override. by destruct (truthy mo). Qed.

Lemma after_override_models task mo s :
  MODEL_CHOICES (after_override task mo s)
  = if truthy mo then <[task := mo]> (MODEL_CHOICES s) else MODEL_CHOICES s.
Proof. unfold after_override. by destruct (truthy mo). Qed.

(** What the [try] of [index] does to the dictionaries. *)
Lemma index_try_effect task input labels mo s :
  let s' := (index_try task input labels mo s).2 in
  MODEL_CHOICES s' = MODEL_CHOICES (after_override task mo s)
  ∧ (pipelines s' = pipelines s
     ∨ ∃ p, supported task = true ∧ pipelines s !! task = None
            ∧ pipelines s' = <[task := p]> (pipelines s)).
Proof.
  rewrite index_try_eq.
  destruct (get_pipeline task (after_override task mo s)) as [[p|e] s1] eqn:Hgp.
  - destruct (invoke_effect task input labels p s1) as (Hp & Hm & _).
    simpl. rewrite Hp, Hm.
    apply get_pipeline_ok in Hgp as (Hm1 & [(Hhit & ->) | (Hmiss & Hsup & Hp1 & _)]).
    + split; [done|]. left. apply after_override_pipelines.
    + rewrite after_override_pipelines in Hmiss, Hp1.
      split; [done|]. right. by exists p.
  - apply get_pipeline_raise in Hgp as (Hp1 & Hm1 & _).
    simpl. rewrite after_override_pipelines in Hp1. auto.
Qed.

(** What one request does to the dictionaries. *)
Lemma index_effect req s :
  let task := task_or_default (f_task (req_form req)) in
  let mo := strip (default [] (f_model_override (req_form req))) in
  let s' := (index req s).2 in
  MODEL_CHOICES s'
  = (if overrides task req then <[task := mo]> (MODEL_CHOICES s)
     else MODEL_CHOICES s)
  ∧ (pipelines s' = pipelines s
     ∨ ∃ p, supported task = true ∧ pipelines s !! task = None
            ∧ pipelines s' = <[task := p]> (pipelines s)).
Proof.
  intros task mo. unfold index, overrides.
  destruct (method req); [simpl; by auto..|].
  subst task mo. rewrite bool_decide_eq_true_2, andb_true_r by done.
  unfold mbind, M_bind.
  destruct (truthy (strip (default [] (f_input_text (req_form req))))) eqn:Hin.
  - rewrite run_try by done.
    pose proof (index_try_effect (task_or_default (f_task (req_form req)))
                  (strip (default [] (f_input_text (req_form req))))
                  (strip (default [] (f_labels (req_form req))))
                  (strip (default [] (f_model_override (req_form req)))) s)
      as Heff.
    destruct (index_try _ _ _ _ s) as [[out|e] s1]; simpl in *;
      by rewrite after_override_models in Heff.
  - rewrite run_blank by done. simpl. auto.
Qed.

(** No request replaces or removes an entry of the cache. *)
Lemma index_entries req s k p :
  pipelines s !! k = Some p → pipelines (index req s).2 !! k = Some p.
Proof.
  intros Hk. destruct (index_effect req s) as [_ [-> | (q & _ & Hnone & ->)]];
    [done|].
  rewrite lookup_insert_ne; [done|]. intros <-. congruence.
Qed.

Lemma serve_entries reqs s k p :
  pipelines s !! k = Some p → pipelines (serve reqs s) !! k = Some p.
Proof.
  revert s. induction reqs as [|r reqs IH]; intros s Hk; simpl; [done|].
  by apply IH, index_entries.
Qed.

Lemma index_cache_ok req s : cache_ok s → cache_ok (index req s).2.
Proof.
  unfold cache_ok. intros Hok.
  destruct (index_effect req s) as [_ [-> | (q & Hsup & _ & ->)]]; [done|].
  by apply map_Forall_insert_2.
Qed.

Lemma serve_cache_ok reqs s : cache_ok s → cache_ok (serve reqs s).
Proof.
  revert s. induction reqs as [|r reqs IH]; intros s Hok; simpl; [done|].
  by apply IH, index_cache_ok.
Qed.

Lemma init_cache_ok : cache_ok init.
Proof. apply map_Forall_empty. Qed.

End Cache2.

(** ** The cache of the first variant *)

Section Cache1.
Context `{Extern}.
Import Flask1 Serve1.

Lemma get_pipeline_hit1 task s p :
  pipelines_cache s !! task = Some p →
  get_pipeline task s = (Ok p, logged (EvGetPipeline task) s).
Proof.
  intros Hhit. unfold get_pipeline, logged, emit. munfold. simpl.
  rewrite Hhit. simpl. by rewrite Hhit.
Qed.

Lemma get_pipeline_ok1 task s p s' :
  get_pipeline task s = (Ok p, s') →
  (pipelines_cache s !! task = Some p ∧ s' = logged (EvGetPipeline task) s)
  ∨ (pipelines_cache s !! task = None
     ∧ pipelines_cache s' = <[task := p]> (pipelines_cache s)
     ∧ ∃ t model,
         task = Some t ∧ supported t = true
         ∧ hf_pipeline (trace s ++ [EvGetPipeline task]) t model None = Ok p
         ∧ trace s' = trace s ++ [EvGetPipeline task; EvLoad t model None]).
Proof.
  unfold get_pipeline, pipeline, cache_set, logged, emit. munfold. simpl.
  destruct (pipelines_cache s !! task) as [q|] eqn:Hq; simpl.
  { rewrite Hq. intros [= -> <-]. by left. }
  intros Heq. right.
  repeat case_bool_decide; simplify_eq/=;
    try (destruct (hf_pipeline _ _ _ _) as [q|e] eqn:Hload; simpl in Heq;
         [rewrite lookup_insert_eq in Heq|]);
    try rewrite Hq in Heq; simplify_eq/=;
    rewrite <- ?app_assoc; simpl;
    (split; [done|split; [done|]]);
    eexists _, _; rewrite supported_true; eauto 10.
Qed.

Lemma get_pipeline_raise1 task s e s' :
  get_pipeline task s = (Raise e, s') →
  pipelines_cache s' = pipelines_cache s
  ∧ pipelines_cache s !! task = None
  ∧ ∃ evs, trace s' = trace s ++ evs ∧ no_call evs = true
      ∧ ((∀ t, task = Some t → supported t = false) →
         s' = logged (EvGetPipeline task) s ∧ e = KeyError task).
Proof.
  unfold get_pipeline, pipeline, cache_set, logged, emit. munfold. simpl.
  destruct (pipelines_cache s !! task) as [q|] eqn:Hq; simpl.
  { by rewrite Hq. }
  intros Heq.
  repeat case_bool_decide; simplify_eq/=;
    try (destruct (hf_pipeline _ _ _ _) as [q|e'] eqn:Hload; simpl in Heq;
         [rewrite lookup_insert_eq in Heq|]);
    try rewrite Hq in Heq; simplify_eq/=;
    rewrite <- ?app_assoc; simpl;
    (split; [done|split; [done|]]);
    eexists; (split; [done|split; [done|]]);
    intros Hs; try (by specialize (Hs _ eq_refl)); done.
Qed.

Lemma run_eq1 task input labels s :
  run task input labels s
  = if truthy (strip input) then
      match get_pipeline task s with
      | (Ok nlp, s1) => invoke task input labels nlp s1
      | (Raise e, s1) => (Raise e, s1)
      end
    else (Ok VNone, s).
Proof. unfold run. by destruct (truthy (strip input)). Qed.

Lemma invoke_effect1 task input labels nlp s :
  let s' := (invoke task input labels nlp s).2 in
  pipelines_cache s' = pipelines_cache s
  ∧ (s' = s ∨ ∃ args, trace s' = trace s ++ [EvCall nlp args]).
Proof.
  unfold invoke, call, emit. munfold. simpl.
  mcases; (split; [done|]); eauto.
Qed.

Lemma index_effect1 req s :
  let task := f_task (req_form req) in
  let s' := (index req s).2 in
  pipelines_cache s' = pipelines_cache s
  ∨ ∃ t p, task = Some t ∧ supported t = true ∧ pipelines_cache s !! task = None
           ∧ pipelines_cache s' = <[task := p]> (pipelines_cache s).
Proof.
  intros task; subst task. unfold index.
  destruct (method req); [simpl; by auto..|].
  cbv zeta. unfold mbind, M_bind. rewrite run_eq1.
  destruct (truthy _); [|simpl; by auto].
  destruct (get_pipeline _ s) as [[p|e] s1] eqn:Hgp.
  - destruct (invoke_effect1 (f_task (req_form req))
                (default [] (f_input_text (req_form req)))
                (default [] (f_labels (req_form req))) p s1) as [Hp _].
    destruct (invoke _ _ _ p s1) as [[out|e] s2]; simpl in *; rewrite Hp;
      apply get_pipeline_ok1 in Hgp
        as [(Hhit & ->) | (Hmiss & Hp1 & t & model & Ht & Hsup & _)];
      (by left) || (right; by exists t, p).
  - apply get_pipeline_raise1 in Hgp as (Hp1 & _). simpl. auto.
Qed.

Lemma index_entries1 req s k p :
  pipelines_cache s !! k = Some p → pipelines_cache (index req s).2 !! k = Some p.
Proof.
  intros Hk.
  destruct (index_effect1 req s) as [-> | (t & q & _ & _ & Hnone & ->)]; [done|].
  rewrite lookup_insert_ne; [done|]. intros <-. congruence.
Qed.

Lemma serve_entries1 reqs s k p :
  pipelines_cache s !! k = Some p → pipelines_cache (serve reqs s) !! k = Some p.
Proof.
  revert s. induction reqs as [|r reqs IH]; intros s Hk; simpl; [done|].
  by apply IH, index_entries1.
Qed.

Lemma index_cache_ok1 req s : cache_ok s → cache_ok (index req s).2.
Proof.
  unfold cache_ok. intros Hok.
  destruct (index_effect1 req s) as [-> | (t & q & Ht & Hsup & _ & ->)]; [done|].
  apply map_Forall_insert_2; [|done]. eauto.
Qed.

Lemma serve_cache_ok1 reqs s : cache_ok s → cache_ok (serve reqs s).
Proof.
  revert s. induction reqs as [|r reqs IH]; intros s Hok; simpl; [done|].
  by apply IH, index_cache_ok1.
Qed.

Lemma init_cache_ok1 : cache_ok init.
Proof. apply map_Forall_empty. Qed.

End Cache1.

(** ** The cache across requests *)

Section CacheClaims.
Context `{Extern}.


(** The first variant: a failed construction propagates and stores
    nothing. *)
Lemma construction_failure1 (t model : pystr) (s : Flask1.state) (e : exn) :
  Flask1.pipelines_cache s !! Some t = None →
  (∀ m, hf_pipeline (Flask1.trace s ++ [EvGetPipeline (Some t)]) t m None = Raise e) →
  supported t = true →
  ∃ s', Flask1.get_pipeline (Some t) s = (Raise e, s')
        ∧ Flask1.pipelines_cache s' = Flask1.pipelines_cache s.
Proof.
  intros Hmiss Hfail Hsup. apply supported_true in Hsup.
  unfold Flask1.get_pipeline, Flask1.pipeline, Flask1.cache_set, Flask1.emit.
  munfold. simpl. rewrite Hmiss.
  repeat case_bool_decide; simplify_eq/=;
    [..|destruct Hsup as [-> | [-> | ->]]; congruence];
    rewrite Hfail; by eexists.
Qed.

(** C8. When pipeline construction fails in [get_pipeline] (second
    variant), the exception of the constructor is the exception of
    [get_pipeline], the cache is left as it was, and so is the cache after
    the whole request. *)
Theorem construction_failure_leaves_cache (req : request) (s : Flask2.state)
  (model : pystr) (e : exn) :
  let task := Flask2.task_or_default (f_task (req_form req)) in
  let mo := strip (default [] (f_model_override (req_form req))) in
  let s0 := Serve2.after_override task mo s in
  method req = POST →
  truthy (strip (default [] (f_input_text (req_form req)))) = true →
  supported task = true →
  Flask2.pipelines s !! task = None →
  Flask2.MODEL_CHOICES s0 !! task = Some model →
  truthy model = true →
  hf_pipeline (Flask2.trace s ++ [EvGetPipeline (Some task);
                                  EvLog INFO (Serve2.loading_msg task model)])
    task model (Some (-1)%Z) = Raise e →
  (∃ s1, Flask2.get_pipeline task s0 = (Raise e, s1)
         ∧ Flask2.pipelines s1 = Flask2.pipelines s)
  ∧ Flask2.pipelines (Flask2.index req s).2 = Flask2.pipelines s.
Proof.
  intros task mo s0 Hpost Hin Hsup Hmiss Hmodel Hm Hfail.
  assert (Hgp : ∃ s1, Flask2.get_pipeline task s0 = (Raise e, s1)
                      ∧ Flask2.pipelines s1 = Flask2.pipelines s).
  { apply supported_true in Hsup.
    unfold Flask2.get_pipeline, Flask2.load, Flask2.pipeline, Flask2.log,
      Flask2.emit.
    munfold. simpl. subst s0.
    rewrite after_override_pipelines, Hmiss, Hmodel, Hm. simpl.
    rewrite ?after_override_trace, ?after_override_pipelines.
    unfold Serve2.loading_msg in Hfail.
    repeat case_bool_decide; [..|destruct Hsup as [?|[?|?]]; congruence];
      subst task; rewrite <- !app_assoc; simpl;
      match goal with Ht : _ = _ |- _ => rewrite Ht in Hfail |- * end;
      rewrite Hfail; by eexists. }
  split; [done|]. destruct Hgp as (s1 & Hgp & Hs1).
  unfold Flask2.index. rewrite Hpost. cbv zeta. unfold mbind, M_bind.
  rewrite run_try, index_try_eq by done.
  fold task mo s0. by rewrite Hgp.
Qed.

End CacheClaims.


Lemma construction_failure_leaves_cache_witness :
  Flask2.pipelines
    (Flask2.index (H:=offline)
       (post (Some summarization) (Some (lit "a long text")) None None) Flask2.init).2
  = Flask2.pipelines (H:=offline) Flask2.init.
Proof.
  apply (construction_failure_leaves_cache (H:=offline)
           (post (Some summarization) (Some (lit "a long text")) None None)
           Flask2.init (lit "sshleifer/distilbart-cnn-12-6")
           (LibError "OSError" (lit "no network")));
    vm_compute; reflexivity.
Defined.

(** ** The model override of the second variant *)

Section Override.
Context `{Extern}.
Import Flask2 Serve2.



(** A miss for a supported task with a model name adds a construction
    with that name to the trace. *)
Lemma get_pipeline_miss_events (task model : pystr) (s : state) :
  pipelines s !! task = None →
  MODEL_CHOICES s !! task = Some model →
  truthy model = true →
  supported task = true →
  ∃ evs, trace (get_pipeline task s).2 = trace s ++ evs
         ∧ EvLoad task model (Some (-1)%Z) ∈ evs.
Proof.
  intros Hmiss Hmodel Hm Hsup. apply supported_true in Hsup.
  unfold get_pipeline, load, pipeline, cache_set, log, emit. munfold. simpl.
  rewrite Hmiss, Hmodel, Hm. simpl.
  repeat case_bool_decide; [..|destruct Hsup as [?|[?|?]]; congruence];
    subst task; destruct (hf_pipeline _ _ _ _); simpl;
    rewrite <- ?app_assoc; simpl; (eexists; split; [reflexivity|]);
    rewrite !elem_of_cons; auto.
Qed.


End Override.



(** ** Requests that fail *)

Section Failures.
Context `{Extern}.

Lemma index_post2 (req : request) (s : Flask2.state) :
  method req = POST →
  Flask2.index req s
  = match Flask2.run (Flask2.task_or_default (f_task (req_form req)))
            (strip (default [] (f_input_text (req_form req))))
            (strip (default [] (f_labels (req_form req))))
            (strip (default [] (f_model_override (req_form req)))) s with
    | (Ok re, s') =>
        (Ok (Flask2.render_template_string re.1 re.2
               (VStr (strip (default [] (f_input_text (req_form req)))))
               (VStr (Flask2.task_or_default (f_task (req_form req))))
               (VStr (strip (default [] (f_labels (req_form req)))))
               (VStr (strip (default [] (f_model_override (req_form req)))))
               (VBool false)), s')
    | (Raise e, s') => (Raise e, s')
    end.
Proof. intros Hpost. unfold Flask2.index. by rewrite Hpost. Qed.

(** C3 is not what the code does. In the second variant, whenever the [try]
    block of a POST request raises an exception [e], the [except] clause
    logs it and then raises itself: building the [error] string adds a list
    to a string. The handler ends with that [TypeError]; no page is
    rendered. *)
Theorem except_clause_raises (req : request) (s s1 : Flask2.state) (e : exn) :
  method req = POST →
  blank (default [] (f_input_text (req_form req))) = false →
  Flask2.index_try (Flask2.task_or_default (f_task (req_form req)))
    (strip (default [] (f_input_text (req_form req))))
    (strip (default [] (f_labels (req_form req))))
    (strip (default [] (f_model_override (req_form req)))) s = (Raise e, s1) →
  Flask2.index req s
  = (Raise (concat_error "str" "list"), Serve2.logged (Serve2.exec_error_event e) s1).
Proof.
  intros Hpost Hin Htry. rewrite index_post2 by done.
  rewrite run_try by (by rewrite truthy_strip, Hin). by rewrite Htry.
Qed.

(** C2, as amended. For every POST request with input text that is not
    whitespace-only and a non-empty task identifier outside the supported
    set: in the first variant [get_pipeline] raises [KeyError] for that
    task and the exception leaves the handler uncaught; in the second
    variant the [try] block raises a [ValueError], which the [except]
    clause catches and logs. In both variants no pipeline is constructed,
    stored or invoked. The states are those whose cache holds supported
    tasks only, as every state reached from the start does
    ([serve_cache_ok1], [serve_cache_ok]). *)
Theorem unknown_task_raises (req : request) (t : pystr)
  (s1 : Flask1.state) (s2 : Flask2.state) :
  let fm := req_form req in
  method req = POST →
  f_task fm = Some t →
  t ≠ [] →
  supported t = false →
  blank (default [] (f_input_text fm)) = false →
  Serve1.cache_ok s1 →
  Serve2.cache_ok s2 →
  Flask1.index req s1
  = (Raise (KeyError (Some t)), Serve1.logged (EvGetPipeline (Some t)) s1)
  ∧ ∃ m s2' evs,
      Flask2.index_try t (strip (default [] (f_input_text fm)))
        (strip (default [] (f_labels fm)))
        (strip (default [] (f_model_override fm))) s2
      = (Raise (ValueError m), s2')
      ∧ (Flask2.index req s2).2
        = Serve2.logged (Serve2.exec_error_event (ValueError m)) s2'
      ∧ Flask2.pipelines s2' = Flask2.pipelines s2
      ∧ Flask2.trace s2' = Flask2.trace s2 ++ evs
      ∧ quiet evs = true.
Proof.
  intros fm Hpost Htask Ht Hsup Hin Hok1 Hok2.
  assert (Htr : truthy (strip (default [] (f_input_text fm))) = true)
    by by rewrite truthy_strip, Hin.
  split.
  - unfold Flask1.index. rewrite Hpost. cbv zeta. fold fm. rewrite Htask.
    unfold mbind, M_bind. rewrite run_eq1, Htr.
    destruct (Flask1.get_pipeline (Some t) s1) as [[p|e] s1'] eqn:Hgp.
    + apply get_pipeline_ok1 in Hgp
        as [(Hhit & _) | (_ & _ & t' & _ & [= <-] & Hsup' & _)]; [|congruence].
      apply Hok1 in Hhit as (t' & [= <-] & Hsup'). congruence.
    + apply get_pipeline_raise1 in Hgp as (_ & _ & evs & _ & _ & Hun).
      destruct Hun as [-> ->]; [|done]. by intros t' [= <-].
  - assert (Hdef : Flask2.task_or_default (f_task fm) = t).
    { rewrite Htask. simpl. by destruct t. }
    pose proof (index_try_eq t (strip (default [] (f_input_text fm)))
                  (strip (default [] (f_labels fm)))
                  (strip (default [] (f_model_override fm))) s2) as Htry.
    destruct (Flask2.get_pipeline t _) as [[p|e] s2'] eqn:Hgp.
    + apply get_pipeline_ok in Hgp as [_ [(Hhit & _) | (_ & Hsup' & _)]];
        [|congruence].
      rewrite after_override_pipelines in Hhit. apply Hok2 in Hhit. congruence.
    + apply get_pipeline_raise in Hgp as (Hp & _ & _ & evs & Htrace & _ & Hun).
      destruct (Hun Hsup) as [Hq [m ->]].
      rewrite after_override_pipelines in Hp. rewrite after_override_trace in Htrace.
      exists m, s2', evs. split; [done|]. split; [|done].
      rewrite index_post2 by done. fold fm.
      rewrite Hdef, run_try by done. by rewrite Htry.
Qed.

(** C4, as amended. For every POST request selecting
    zero-shot-classification with input text that is not whitespace-only
    and a labels string without any non-empty trimmed label: in the second
    variant the [try] block ends in an exception without the pipeline being
    invoked, the [ValueError] of the label check when [get_pipeline]
    returned and the exception of [get_pipeline] otherwise, and the request
    as a whole adds no invocation to the trace; in the first variant there
    is no such check and the pipeline that [get_pipeline] returns is
    invoked with an empty list of candidate labels. *)
Theorem zero_shot_without_labels (req : request)
  (s1 : Flask1.state) (s2 : Flask2.state) :
  let fm := req_form req in
  let input := default [] (f_input_text fm) in
  let labels := default [] (f_labels fm) in
  let mo := strip (default [] (f_model_override fm)) in
  method req = POST →
  f_task fm = Some zero_shot_classification →
  blank input = false →
  forallb blank (split comma labels) = true →
  Flask2.index_try zero_shot_classification (strip input) (strip labels) mo s2
  = match Flask2.get_pipeline zero_shot_classification
            (Serve2.after_override zero_shot_classification mo s2) with
    | (Ok _, s') =>
        (Raise (ValueError
                  (lit "Zero-shot requires at least one comma-separated label.")), s')
    | (Raise e, s') => (Raise e, s')
    end
  ∧ (∃ evs, Flask2.trace (Flask2.index req s2).2 = Flask2.trace s2 ++ evs
            ∧ no_call evs = true)
  ∧ Flask1.index req s1
    = match Flask1.get_pipeline (Some zero_shot_classification) s1 with
      | (Ok nlp, s') =>
          match Flask1.call nlp (ZeroShot input []) s' with
          | (Ok result, s'') =>
              (Ok (Flask1.render_template_string result (VStr input)
                     (VStr zero_shot_classification) (VStr labels)), s'')
          | (Raise e, s'') => (Raise e, s'')
          end
      | (Raise e, s') => (Raise e, s')
      end.
Proof.
  intros fm input labels mo Hpost Htask Hin Hlabels.
  assert (Htr : truthy (strip input) = true) by by rewrite truthy_strip, Hin.
  apply parse_labels_nil in Hlabels.
  assert (Hzs : zero_shot_classification ≠ sentiment_analysis
                ∧ zero_shot_classification ≠ summarization).
  { destruct task_names_distinct as (_ & H13 & H23). split; congruence. }
  destruct Hzs as [Hzs1 Hzs2].
  assert (Htry : Flask2.index_try zero_shot_classification (strip input)
                   (strip labels) mo s2
                 = match Flask2.get_pipeline zero_shot_classification
                           (Serve2.after_override zero_shot_classification mo s2) with
                   | (Ok _, s') =>
                       (Raise (ValueError
                          (lit "Zero-shot requires at least one comma-separated label.")),
                        s')
                   | (Raise e, s') => (Raise e, s')
                   end).
  { rewrite index_try_eq.
    destruct (Flask2.get_pipeline _ _) as [[p|e] s'] eqn:Hgp; [|done].
    unfold Flask2.invoke.
    rewrite !bool_decide_eq_false_2, bool_decide_eq_true_2 by done.
    cbv zeta. by rewrite parse_labels_strip, Hlabels. }
  split; [done|]. split.
  - rewrite index_post2 by done. fold fm input labels mo.
    rewrite Htask. simpl Flask2.task_or_default.
    replace (truthy zero_shot_classification) with true by done.
    rewrite run_try, Htry by done.
    destruct (Flask2.get_pipeline _ _) as [[p|e] s'] eqn:Hgp; simpl.
    + apply get_pipeline_ok in Hgp as [_ [(_ & ->) | (_ & _ & _ & m & _ & _ & _ & ->)]];
        simpl; rewrite after_override_trace, <- app_assoc; by eexists.
    + apply get_pipeline_raise in Hgp as (_ & _ & _ & evs & -> & Hnc & _).
      rewrite after_override_trace, <- app_assoc. eexists. split; [done|].
      rewrite no_call_app, Hnc. done.
  - unfold Flask1.index. rewrite Hpost. cbv zeta. fold fm input labels.
    rewrite Htask. unfold mbind, M_bind. rewrite run_eq1, Htr.
    destruct (Flask1.get_pipeline _ s1) as [[p|e] s'] eqn:Hgp; [|done].
    unfold Flask1.invoke.
    rewrite !bool_decide_eq_false_2, bool_decide_eq_true_2 by congruence.
    cbv zeta. by rewrite Hlabels.
Qed.

End Failures.

Lemma except_clause_raises_witness :
  Flask2.index (H:=obliging)
    (post (Some (lit "translation")) (Some (lit "hi")) None None) Flask2.init
  = (Raise (concat_error "str" "list"),
     Serve2.logged (H:=obliging)
       (Serve2.exec_error_event (H:=obliging)
          (ValueError (lit "Unknown task: translation")))
       (Serve2.logged (H:=obliging) (EvGetPipeline (Some (lit "translation")))
          Flask2.init)).
Proof.
  apply (except_clause_raises (H:=obliging)
           (post (Some (lit "translation")) (Some (lit "hi")) None None)
           Flask2.init); vm_compute; reflexivity.
Defined.

Lemma unknown_task_raises_witness :
  Flask1.index (H:=obliging)
    (post (Some (lit "translation")) (Some (lit "hi")) None None) Flask1.init
  = (Raise (KeyError (Some (lit "translation"))),
     Serve1.logged (H:=obliging) (EvGetPipeline (Some (lit "translation")))
       Flask1.init).
Proof.
  apply (unknown_task_raises (H:=obliging)
           (post (Some (lit "translation")) (Some (lit "hi")) None None)
           (lit "translation") Flask1.init Flask2.init);
    [reflexivity | reflexivity | discriminate | vm_compute; reflexivity
    | vm_compute; reflexivity | apply init_cache_ok1 | apply init_cache_ok].
Defined.

(** C2 as stated fails in the first variant: the unknown task ends the
    handler with an uncaught [KeyError], not with a page. *)
Lemma unknown_task_flask1_uncaught :
  ¬ renders_error
      (Flask1.index (H:=obliging)
         (post (Some (lit "translation")) (Some (lit "hi")) None None)
         Flask1.init).1.
Proof. intros (msg & pg & Hpg & _). vm_compute in Hpg. discriminate Hpg. Qed.

Lemma zero_shot_without_labels_witness :
  ∃ evs,
    Flask2.trace
      (Flask2.index (H:=obliging)
         (post (Some zero_shot_classification) (Some (lit "This is about soccer"))
            (Some (lit " , ")) None) Flask2.init).2
    = Flask2.trace (H:=obliging) Flask2.init ++ evs
    ∧ no_call evs = true.
Proof.
  apply (zero_shot_without_labels (H:=obliging)
           (post (Some zero_shot_classification) (Some (lit "This is about soccer"))
              (Some (lit " , ")) None) Flask1.init Flask2.init);
    vm_compute; reflexivity.
Defined.

(** C4 as stated fails in the first variant: with a whitespace-only labels
    string the pipeline is invoked all the same. *)
Lemma zero_shot_flask1_invokes :
  ¬ no_call
      (Flask1.trace
         (Flask1.index (H:=obliging)
            (post (Some zero_shot_classification)
               (Some (lit "This is about soccer")) (Some (lit "  ")) None)
            Flask1.init).2) = true.
Proof. vm_compute. discriminate. Qed.

(** ** The candidate labels of a request *)

Section LabelClaims.
Context `{Extern}.

Lemma dedup_first_NoDup (l : list pystr) : NoDup (dedup_first l).
Proof.
  induction l as [|x r IH]; simpl; [constructor|].
  apply NoDup_cons. split.
  - rewrite list_elem_of_filter. by intros [? _].
  - by apply NoDup_filter.
Qed.

Lemma dedup_first_elem (l : list pystr) (x : pystr) : x ∈ dedup_first l ↔ x ∈ l.
Proof.
  induction l as [|y r IH]; simpl; [done|].
  rewrite !elem_of_cons, list_elem_of_filter, IH. split.
  - intros [-> | [_ Hin]]; auto.
  - intros [-> | Hin]; [by left|].
    destruct (decide (x = y)) as [-> | Hne]; auto.
Qed.

(** C7, as amended. For every labels string of a zero-shot request, in
    both variants, the candidate labels handed to the pipeline are the
    comma-separated fields, each trimmed of whitespace, with the empty ones
    removed, in their original order; equal labels are all kept. The second
    variant trims the whole string first, which changes nothing, and
    refuses an empty list. *)
Theorem candidate_labels_parsed (raw input : pystr) (nlp : Pipeline) :
  parse_labels raw = trimmed_fields raw
  ∧ parse_labels (strip raw) = trimmed_fields raw
  ∧ Forall (λ l, l ≠ [] ∧ comma ∉ l) (trimmed_fields raw)
  ∧ Flask1.invoke (Some zero_shot_classification) input raw nlp
    = Flask1.call nlp (ZeroShot input (trimmed_fields raw))
  ∧ Flask2.invoke zero_shot_classification input (strip raw) nlp
    = match trimmed_fields raw with
      | [] => raise (ValueError
                       (lit "Zero-shot requires at least one comma-separated label."))
      | _ :: _ => Flask2.call nlp (ZeroShot input (trimmed_fields raw))
      end.
Proof.
  destruct task_names_distinct as (_ & H13 & H23).
  split; [apply parse_labels_fields|].
  split; [by rewrite parse_labels_strip, parse_labels_fields|].
  split.
  - rewrite <- parse_labels_fields. apply Forall_forall. intros l Hl.
    apply parse_labels_elem in Hl as (Hne & f & Hf & ->). split; [done|].
    apply strip_no_comma.
    pose proof (split_no_sep comma raw) as Hall.
    by apply (proj1 (Forall_forall _ _) Hall).
  - split.
    + unfold Flask1.invoke.
      rewrite !bool_decide_eq_false_2, bool_decide_eq_true_2 by congruence.
      cbv zeta. by rewrite parse_labels_fields.
    + unfold Flask2.invoke.
      rewrite !bool_decide_eq_false_2, bool_decide_eq_true_2 by congruence.
      cbv zeta. by rewrite parse_labels_strip, parse_labels_fields.
Qed.

End LabelClaims.

(** C7 as stated fails: a label given twice is handed over twice. *)
Lemma duplicate_labels_kept :
  parse_labels (lit "sports, politics,sports ")
  ≠ labels_as_specified (lit "sports, politics,sports ").
Proof. vm_compute. discriminate. Qed.

(** * Further properties of the handlers *)

(** ** Counting events *)

Section Counting.
Context {P : Type}.
Implicit Types (evs : list (event P)) (t : pystr).

Lemma count_if_app {A} (f : A → bool) (l1 l2 : list A) :
  count_if f (l1 ++ l2) = (count_if f l1 + count_if f l2)%nat.
Proof. unfold count_if. by rewrite List.filter_app, length_app. Qed.

Lemma no_load_app evs1 evs2 : no_load (evs1 ++ evs2) = no_load evs1 && no_load evs2.
Proof. apply forallb_app. Qed.

Lemma no_load_of_app t evs1 evs2 :
  no_load_of t (evs1 ++ evs2) = no_load_of t evs1 && no_load_of t evs2.
Proof. apply forallb_app. Qed.

Lemma only_loads_app t evs1 evs2 :
  only_loads t (evs1 ++ evs2) = only_loads t evs1 && only_loads t evs2.
Proof. apply forallb_app. Qed.

Lemma no_load_no_load_of t evs : no_load evs = true → no_load_of t evs = true.
Proof.
  unfold no_load, no_load_of. rewrite !forallb_forall. intros Hn ev Hev.
  specialize (Hn ev Hev). by destruct ev.
Qed.

Lemma no_load_only_loads t evs : no_load evs = true → only_loads t evs = true.
Proof.
  unfold no_load, only_loads. rewrite !forallb_forall. intros Hn ev Hev.
  specialize (Hn ev Hev). by destruct ev.
Qed.

Lemma only_loads_other t t' evs :
  t ≠ t' → only_loads t evs = true → no_load_of t' evs = true.
Proof.
  unfold only_loads, no_load_of. rewrite !forallb_forall. intros Hne Ho ev Hev.
  specialize (Ho ev Hev). destruct ev as [| t'' m d | |]; simpl in *; try done.
  apply bool_decide_eq_true in Ho as ->. by rewrite bool_decide_eq_false_2.
Qed.

Lemma no_load_count evs : no_load evs = true → count_if is_load evs = 0%nat.
Proof.
  unfold no_load, count_if. induction evs as [|ev evs IH]; simpl; [done|].
  rewrite andb_true_iff. intros [Hev Hevs]. destruct (is_load ev); [done|auto].
Qed.

Lemma no_call_count evs : no_call evs = true → count_if is_call evs = 0%nat.
Proof.
  unfold no_call, count_if. induction evs as [|ev evs IH]; simpl; [done|].
  rewrite andb_true_iff. intros [Hev Hevs]. destruct (is_call ev); [done|auto].
Qed.

Lemma no_call_elem evs (q : P) args : no_call evs = true → EvCall q args ∉ evs.
Proof.
  unfold no_call. rewrite forallb_forall. intros Hn Hin.
  apply list_elem_of_In, Hn in Hin. done.
Qed.

Lemma quiet_no_load evs : quiet evs = true → no_load evs = true.
Proof.
  unfold quiet, no_load. rewrite !forallb_forall. intros Hq ev Hev.
  specialize (Hq ev Hev). by destruct ev.
Qed.

End Counting.

(** ** What one call and one request add to the trace *)

Section Events2.
Context `{Extern}.
Import Flask2 Serve2.

(** [get_pipeline] invokes nothing and constructs at most once, for its
    own task, and only on a miss. *)
Lemma get_pipeline_events task s :
  ∃ evs, trace (get_pipeline task s).2 = trace s ++ evs
    ∧ no_call evs = true
    ∧ (count_if is_load evs ≤ 1)%nat
    ∧ only_loads task evs = true
    ∧ (is_Some (pipelines s !! task) → no_load evs = true).
Proof.
  unfold get_pipeline, load, pipeline, cache_set, log, emit. munfold. simpl.
  mcases; rewrite <- ?app_assoc; simpl;
    (eexists; split; [reflexivity|]); unfold count_if; simpl;
    rewrite ?bool_decide_eq_true_2 by done;
    repeat split; first [done | lia | by intros [? ?]].
Qed.


Lemma get_pipeline_stored task s p s' :
  get_pipeline task s = (Ok p, s') → pipelines s' !! task = Some p.
Proof.
  intros Hgp. apply get_pipeline_ok in Hgp as [_ [(Hhit & ->) | (_ & _ & -> & _)]];
    [done|apply lookup_insert_eq].
Qed.

(** Running the pipeline constructs nothing and invokes at most once, the
    object it was given. *)
Lemma invoke_events task input labels nlp s :
  ∃ evs, trace (invoke task input labels nlp s).2 = trace s ++ evs
    ∧ no_load evs = true
    ∧ (count_if is_call evs ≤ 1)%nat
    ∧ (∀ q args, EvCall q args ∈ evs → q = nlp).
Proof.
  unfold invoke, call, emit. munfold. simpl.
  mcases;
    first
      [ solve [ exists []; rewrite app_nil_r; (split; [reflexivity|]);
                unfold count_if; simpl; (repeat split; [lia|]);
                intros q args Hin; by apply elem_of_nil in Hin ]
      | solve [ eexists [_]; (split; [reflexivity|]);
                unfold count_if; simpl; (repeat split; [lia|]);
                intros q args Hin;
                by apply list_elem_of_singleton in Hin as [= -> _] ] ].
Qed.

Lemma index_try_events task input labels mo s :
  ∃ evs, trace (index_try task input labels mo s).2 = trace s ++ evs
    ∧ (count_if is_load evs ≤ 1)%nat
    ∧ (count_if is_call evs ≤ 1)%nat
    ∧ only_loads task evs = true
    ∧ (is_Some (pipelines s !! task) → no_load evs = true)
    ∧ (∀ q args, EvCall q args ∈ evs →
         pipelines (index_try task input labels mo s).2 !! task = Some q).
Proof.
  rewrite index_try_eq.
  destruct (get_pipeline_events task (after_override task mo s))
    as (evs1 & Ht1 & Hnc1 & Hl1 & Ho1 & Hhit1).
  rewrite after_override_trace, after_override_pipelines in *.
  destruct (get_pipeline task (after_override task mo s)) as [[p|e] s1] eqn:Hgp;
    simpl in Ht1.
  - destruct (invoke_events task input labels p s1) as (evs2 & Ht2 & Hnl2 & Hc2 & Hq2).
    destruct (invoke_effect task input labels p s1) as (Hp2 & _).
    exists (evs1 ++ evs2). rewrite Ht2, Ht1, app_assoc.
    rewrite !count_if_app, only_loads_app, no_load_app, Ho1, Hp2.
    rewrite (no_load_count evs2), (no_call_count evs1), (no_load_only_loads _ evs2)
      by done.
    repeat split; try done; try lia.
    + intros Hs. by rewrite Hhit1, Hnl2.
    + intros q args [Hin|Hin]%elem_of_app; [by apply no_call_elem in Hin|].
      apply Hq2 in Hin as ->. by apply get_pipeline_stored in Hgp.
  - exists evs1. rewrite (no_call_count evs1) by done.
    repeat split; try done; try lia.
    intros q args Hin. by apply no_call_elem in Hin.
Qed.

(** What one request adds to the trace: at most one construction, for the
    selected task and only when the cache misses, and at most one
    invocation, of the object that the cache holds for that task. *)
Lemma index_events req s :
  let task := task_or_default (f_task (req_form req)) in
  ∃ evs, trace (index req s).2 = trace s ++ evs
    ∧ (count_if is_load evs ≤ 1)%nat
    ∧ (count_if is_call evs ≤ 1)%nat
    ∧ only_loads task evs = true
    ∧ (is_Some (pipelines s !! task) → no_load evs = true)
    ∧ (∀ q args, EvCall q args ∈ evs → pipelines (index req s).2 !! task = Some q).
Proof.
  intros task; subst task.
  assert (Hnone : ∀ X, ∃ evs : list (event Pipeline),
            trace s = trace s ++ evs ∧ (count_if is_load evs ≤ 1)%nat
            ∧ (count_if is_call evs ≤ 1)%nat
            ∧ only_loads (task_or_default (f_task (req_form req))) evs = true
            ∧ (is_Some (pipelines s !! task_or_default (f_task (req_form req)))
               → no_load evs = true)
            ∧ (∀ q args, EvCall q args ∈ evs → X q)).
  { intros X. exists []. rewrite app_nil_r. unfold count_if. simpl.
    repeat split; try done; try lia. intros q args Hin. by apply elem_of_nil in Hin. }
  destruct (method req) eqn:Hm;
    [unfold index; rewrite Hm; simpl; apply Hnone..|].
  rewrite index_post2 by done.
  destruct (truthy (strip (default [] (f_input_text (req_form req))))) eqn:Hin;
    [|rewrite run_blank by done; simpl; apply Hnone].
  rewrite run_try by done.
  destruct (index_try_events (task_or_default (f_task (req_form req)))
              (strip (default [] (f_input_text (req_form req))))
              (strip (default [] (f_labels (req_form req))))
              (strip (default [] (f_model_override (req_form req)))) s)
    as (evs & Ht & Hl & Hc & Ho & Hhit & Hq).
  destruct (index_try _ _ _ _ s) as [[out|e] s1]; simpl in *.
  - exists evs. done.
  - exists (evs ++ [exec_error_event e]). rewrite Ht, app_assoc.
    rewrite !count_if_app, only_loads_app, no_load_app, Ho.
    unfold count_if at 2 4. simpl.
    repeat split; try done; try lia.
    + intros Hs. by rewrite Hhit.
    + intros q args [Hi|Hi]%elem_of_app; [by apply Hq in Hi|].
      by apply list_elem_of_singleton in Hi.
Qed.

End Events2.

Section Events1.
Context `{Extern}.
Import Flask1 Serve1.

Lemma get_pipeline_stored1 task s p s' :
  get_pipeline task s = (Ok p, s') → pipelines_cache s' !! task = Some p.
Proof.
  intros Hgp. apply get_pipeline_ok1 in Hgp as [(Hhit & ->) | (_ & -> & _)];
    [done|apply lookup_insert_eq].
Qed.

Lemma get_pipeline_events1 task s :
  ∃ evs, trace (get_pipeline task s).2 = trace s ++ evs
    ∧ no_call evs = true
    ∧ (count_if is_load evs ≤ 1)%nat
    ∧ only_loads_key task evs = true
    ∧ (is_Some (pipelines_cache s !! task) → no_load evs = true).
Proof.
  unfold get_pipeline, pipeline, cache_set, emit. munfold. simpl.
  destruct (pipelines_cache s !! task) as [q|] eqn:Hq; simpl.
  { rewrite Hq. simpl. eexists. split; [reflexivity|].
    unfold count_if. simpl. repeat split; try done; try lia. by destruct task. }
  repeat case_bool_decide; simplify_eq/=;
    try (destruct (hf_pipeline _ _ _ _) as [q|e] eqn:Hload; simpl;
         rewrite ?lookup_insert_eq; simpl);
    rewrite ?Hq; simpl; rewrite <- ?app_assoc; simpl;
    (eexists; split; [reflexivity|]); unfold count_if; simpl;
    rewrite ?bool_decide_eq_true_2 by done;
    repeat split; first [done | lia | by intros [? ?] | by destruct task].
Qed.

Lemma invoke_events1 task input labels nlp s :
  ∃ evs, trace (invoke task input labels nlp s).2 = trace s ++ evs
    ∧ no_load evs = true
    ∧ (count_if is_call evs ≤ 1)%nat
    ∧ (∀ q args, EvCall q args ∈ evs → q = nlp).
Proof.
  unfold invoke, call, emit. munfold. simpl.
  mcases;
    first
      [ solve [ exists []; rewrite app_nil_r; (split; [reflexivity|]);
                unfold count_if; simpl; (repeat split; [lia|]);
                intros q args Hin; by apply elem_of_nil in Hin ]
      | solve [ eexists [_]; (split; [reflexivity|]);
                unfold count_if; simpl; (repeat split; [lia|]);
                intros q args Hin;
                by apply list_elem_of_singleton in Hin as [= -> _] ] ].
Qed.

Lemma no_load_only_loads_key (k : option pystr) (evs : list (event Pipeline)) :
  no_load evs = true → only_loads_key k evs = true.
Proof. destruct k; [apply no_load_only_loads|done]. Qed.

Lemma only_loads_key_app (k : option pystr) (evs1 evs2 : list (event Pipeline)) :
  only_loads_key k (evs1 ++ evs2) = only_loads_key k evs1 && only_loads_key k evs2.
Proof. destruct k; [apply only_loads_app|apply no_load_app]. Qed.

(** The same account for a request of the first variant. *)
Lemma index_events1 req s :
  let task := f_task (req_form req) in
  ∃ evs, trace (index req s).2 = trace s ++ evs
    ∧ (count_if is_load evs ≤ 1)%nat
    ∧ (count_if is_call evs ≤ 1)%nat
    ∧ only_loads_key task evs = true
    ∧ (is_Some (pipelines_cache s !! task) → no_load evs = true)
    ∧ (∀ q args, EvCall q args ∈ evs →
         pipelines_cache (index req s).2 !! task = Some q).
Proof.
  intros task; subst task.
  assert (Hnone : ∀ X, ∃ evs : list (event Pipeline),
            trace s = trace s ++ evs ∧ (count_if is_load evs ≤ 1)%nat
            ∧ (count_if is_call evs ≤ 1)%nat
            ∧ only_loads_key (f_task (req_form req)) evs = true
            ∧ (is_Some (pipelines_cache s !! f_task (req_form req))
               → no_load evs = true)
            ∧ (∀ q args, EvCall q args ∈ evs → X q)).
  { intros X. exists []. rewrite app_nil_r. unfold count_if. simpl.
    repeat split; try done; try lia; [by destruct (f_task _)|].
    intros q args Hin. by apply elem_of_nil in Hin. }
  unfold index.
  destruct (method req) eqn:Hm; [simpl; apply Hnone..|].
  cbv zeta. unfold mbind, M_bind. rewrite run_eq1.
  destruct (truthy _); [|simpl; apply Hnone].
  destruct (get_pipeline_events1 (f_task (req_form req)) s)
    as (evs1 & Ht1 & Hnc1 & Hl1 & Ho1 & Hhit1).
  destruct (get_pipeline (f_task (req_form req)) s) as [[p|e] s1] eqn:Hgp;
    simpl in Ht1.
  - destruct (invoke_events1 (f_task (req_form req))
                (default [] (f_input_text (req_form req)))
                (default [] (f_labels (req_form req))) p s1)
      as (evs2 & Ht2 & Hnl2 & Hc2 & Hq2).
    destruct (invoke_effect1 (f_task (req_form req))
                (default [] (f_input_text (req_form req)))
                (default [] (f_labels (req_form req))) p s1) as (Hp2 & _).
    assert (Hgoal : ∃ evs, trace (invoke (f_task (req_form req))
                (default [] (f_input_text (req_form req)))
                (default [] (f_labels (req_form req))) p s1).2 = trace s ++ evs
              ∧ (count_if is_load evs ≤ 1)%nat ∧ (count_if is_call evs ≤ 1)%nat
              ∧ only_loads_key (f_task (req_form req)) evs = true
              ∧ (is_Some (pipelines_cache s !! f_task (req_form req))
                 → no_load evs = true)
              ∧ (∀ q args, EvCall q args ∈ evs →
                   pipelines_cache (invoke (f_task (req_form req))
                     (default [] (f_input_text (req_form req)))
                     (default [] (f_labels (req_form req))) p s1).2
                     !! f_task (req_form req) = Some q)).
    { exists (evs1 ++ evs2). rewrite Ht2, Ht1, app_assoc.
      rewrite !count_if_app, only_loads_key_app, no_load_app, Ho1, Hp2.
      rewrite (no_load_count evs2), (no_call_count evs1),
        (no_load_only_loads_key _ evs2) by done.
      repeat split; try done; try lia.
      + intros Hs. by rewrite Hhit1, Hnl2.
      + intros q args [Hin|Hin]%elem_of_app; [by apply no_call_elem in Hin|].
        apply Hq2 in Hin as ->. by apply get_pipeline_stored1 in Hgp. }
    by destruct (invoke _ _ _ p s1) as [[out|e] s2].
  - simpl. exists evs1. rewrite (no_call_count evs1) by done.
    repeat split; try done; try lia.
    intros q args Hin. by apply no_call_elem in Hin.
Qed.

End Events1.

(** ** The cache over the life of the process *)

Section Lifetime.
Context `{Extern}.

Lemma supported_keys_size {V} (m : gmap pystr V) :
  map_Forall (λ t _, supported t = true) m → (size m ≤ 3)%nat.
Proof.
  intros Hall. rewrite <- size_dom.
  transitivity (size ({[sentiment_analysis; summarization;
                        zero_shot_classification]} : gset pystr));
    [|by vm_compute].
  apply subseteq_size. intros t [v Hv]%elem_of_dom.
  apply Hall, supported_true in Hv.
  rewrite !elem_of_union, !elem_of_singleton. tauto.
Qed.

Lemma supported_keys_size1 {V} (m : gmap (option pystr) V) :
  map_Forall (λ k _, ∃ t, k = Some t ∧ supported t = true) m → (size m ≤ 3)%nat.
Proof.
  intros Hall. rewrite <- size_dom.
  transitivity (size ({[Some sentiment_analysis; Some summarization;
                        Some zero_shot_classification]} : gset (option pystr)));
    [|by vm_compute].
  apply subseteq_size. intros k [v Hv]%elem_of_dom.
  apply Hall in Hv as (t & -> & Hsup). apply supported_true in Hsup.
  rewrite !elem_of_union, !elem_of_singleton.
  destruct Hsup as [-> | [-> | ->]]; tauto.
Qed.

(** X1. Whatever requests were served since the start, the cache holds
    entries for supported tasks only, hence at most three, in both
    variants. *)
Theorem cache_holds_supported_tasks (reqs : list request) :
  Serve1.cache_ok (Serve1.serve reqs Flask1.init)
  ∧ (size (Flask1.pipelines_cache (Serve1.serve reqs Flask1.init)) ≤ 3)%nat
  ∧ Serve2.cache_ok (Serve2.serve reqs Flask2.init)
  ∧ (size (Flask2.pipelines (Serve2.serve reqs Flask2.init)) ≤ 3)%nat.
Proof.
  pose proof (serve_cache_ok1 reqs _ init_cache_ok1) as Hok1.
  pose proof (serve_cache_ok reqs _ init_cache_ok) as Hok2.
  split; [done|]. split; [by apply supported_keys_size1|].
  split; [done|]. by apply supported_keys_size.
Qed.

(** X2. No request ever replaces or evicts a cache entry: an object stored
    for a key is still stored for it after any further requests, in both
    variants. *)
Theorem cache_entries_kept (reqs : list request) :
  (∀ (s : Flask1.state) (k : option pystr) (p : Pipeline),
     Flask1.pipelines_cache s !! k = Some p →
     Flask1.pipelines_cache (Serve1.serve reqs s) !! k = Some p)
  ∧ (∀ (s : Flask2.state) (t : pystr) (p : Pipeline),
       Flask2.pipelines s !! t = Some p →
       Flask2.pipelines (Serve2.serve reqs s) !! t = Some p).
Proof.
  split; intros s k p Hk; [by apply serve_entries1|by apply serve_entries].
Qed.

Lemma serve_no_reload2 (reqs : list request) (s : Flask2.state) (t : pystr)
  (p : Pipeline) :
  Flask2.pipelines s !! t = Some p →
  ∃ evs, Flask2.trace (Serve2.serve reqs s) = Flask2.trace s ++ evs
         ∧ no_load_of t evs = true.
Proof.
  revert s. induction reqs as [|r reqs IH]; intros s Hk; simpl.
  { exists []. by rewrite app_nil_r. }
  destruct (index_events r s) as (evs1 & Ht1 & _ & _ & Ho1 & Hhit1 & _).
  destruct (IH _ (index_entries r s t p Hk)) as (evs2 & Ht2 & Hn2).
  exists (evs1 ++ evs2). rewrite Ht2, Ht1, app_assoc, no_load_of_app, Hn2.
  split; [done|]. rewrite andb_true_r.
  destruct (decide (Flask2.task_or_default (f_task (req_form r)) = t)) as [Heq|Hne].
  - apply no_load_no_load_of, Hhit1. rewrite Heq, Hk. by eexists.
  - by apply (only_loads_other _ t) in Ho1.
Qed.

Lemma serve_no_reload1 (reqs : list request) (s : Flask1.state) (t : pystr)
  (p : Pipeline) :
  Flask1.pipelines_cache s !! Some t = Some p →
  ∃ evs, Flask1.trace (Serve1.serve reqs s) = Flask1.trace s ++ evs
         ∧ no_load_of t evs = true.
Proof.
  revert s. induction reqs as [|r reqs IH]; intros s Hk; simpl.
  { exists []. by rewrite app_nil_r. }
  destruct (index_events1 r s) as (evs1 & Ht1 & _ & _ & Ho1 & Hhit1 & _).
  destruct (IH _ (index_entries1 r s (Some t) p Hk)) as (evs2 & Ht2 & Hn2).
  exists (evs1 ++ evs2). rewrite Ht2, Ht1, app_assoc, no_load_of_app, Hn2.
  split; [done|]. rewrite andb_true_r.
  destruct (f_task (req_form r)) as [t'|] eqn:Htask; simpl in Ho1.
  - destruct (decide (t' = t)) as [->|Hne].
    + apply no_load_no_load_of, Hhit1. rewrite Hk. by eexists.
    + by apply (only_loads_other _ t) in Ho1.
  - by apply no_load_no_load_of.
Qed.

(** X3. Once a task has an entry in the cache, no later request constructs
    a pipeline for that task again, in both variants: the trace gains no
    construction for it. *)
Theorem cached_task_never_reloaded (reqs : list request) (t : pystr) :
  (∀ (s : Flask1.state) (p : Pipeline),
     Flask1.pipelines_cache s !! Some t = Some p →
     ∃ evs, Flask1.trace (Serve1.serve reqs s) = Flask1.trace s ++ evs
            ∧ no_load_of t evs = true)
  ∧ (∀ (s : Flask2.state) (p : Pipeline),
       Flask2.pipelines s !! t = Some p →
       ∃ evs, Flask2.trace (Serve2.serve reqs s) = Flask2.trace s ++ evs
              ∧ no_load_of t evs = true).
Proof.
  split; intros s p Hk; [by eapply serve_no_reload1|by eapply serve_no_reload2].
Qed.

(** X4. One request constructs at most one pipeline and invokes at most one,
    in both variants; a construction is for the task the request selects and
    happens only when the cache has no entry for it; an invocation is of the
    object the cache holds for that task after the request. *)
Theorem request_loads_and_calls_once (req : request)
  (s1 : Flask1.state) (s2 : Flask2.state) :
  (∃ evs, Flask1.trace (Flask1.index req s1).2 = Flask1.trace s1 ++ evs
     ∧ (count_if is_load evs ≤ 1)%nat
     ∧ (count_if is_call evs ≤ 1)%nat
     ∧ only_loads_key (f_task (req_form req)) evs = true
     ∧ (is_Some (Flask1.pipelines_cache s1 !! f_task (req_form req))
        → no_load evs = true)
     ∧ (∀ q args, EvCall q args ∈ evs →
          Flask1.pipelines_cache (Flask1.index req s1).2 !! f_task (req_form req)
          = Some q))
  ∧ (∃ evs, Flask2.trace (Flask2.index req s2).2 = Flask2.trace s2 ++ evs
       ∧ (count_if is_load evs ≤ 1)%nat
       ∧ (count_if is_call evs ≤ 1)%nat
       ∧ only_loads (Flask2.task_or_default (f_task (req_form req))) evs = true
       ∧ (is_Some (Flask2.pipelines s2
                     !! Flask2.task_or_default (f_task (req_form req)))
          → no_load evs = true)
       ∧ (∀ q args, EvCall q args ∈ evs →
            Flask2.pipelines (Flask2.index req s2).2
              !! Flask2.task_or_default (f_task (req_form req)) = Some q)).
Proof. split; [apply index_events1|apply index_events]. Qed.

End Lifetime.

Lemma cache_entries_kept_witness :
  Flask2.pipelines
    (Serve2.serve (H:=obliging)
       [post (Some sentiment_analysis) (Some (lit "hi")) None (Some (lit "x/y")); get]
       (Flask2.get_pipeline (H:=obliging) sentiment_analysis Flask2.init).2)
    !! sentiment_analysis
  = Some 2%nat.
Proof.
  apply (proj2 (cache_entries_kept (H:=obliging)
                  [post (Some sentiment_analysis) (Some (lit "hi")) None
                     (Some (lit "x/y")); get])).
  vm_compute; reflexivity.
Defined.

Lemma cached_task_never_reloaded_witness :
  ∃ evs,
    Flask2.trace
      (Serve2.serve (H:=obliging)
         [post (Some sentiment_analysis) (Some (lit "hi")) None (Some (lit "x/y"));
          post (Some summarization) (Some (lit "long text")) None None]
         (Flask2.get_pipeline (H:=obliging) sentiment_analysis Flask2.init).2)
    = Flask2.trace (Flask2.get_pipeline (H:=obliging) sentiment_analysis Flask2.init).2
      ++ evs
    ∧ no_load_of sentiment_analysis evs = true.
Proof.
  apply (proj2 (cached_task_never_reloaded (H:=obliging)
                  [post (Some sentiment_analysis) (Some (lit "hi")) None
                     (Some (lit "x/y"));
                   post (Some summarization) (Some (lit "long text")) None None]
                  sentiment_analysis) _ 2%nat).
  vm_compute; reflexivity.
Defined.

(** ** The model table of the second variant *)

Section ModelTable.
Context `{Extern}.
Import Flask2 Serve2.

(** X5. An override for a task that is already in the cache does not take
    effect: the request stores the new model name in [MODEL_CHOICES], but it
    constructs nothing, the cache keeps the old object and any invocation
    is of that old object. *)
Theorem override_of_cached_task_is_stale (req : request) (s : state) (p : Pipeline) :
  let task := task_or_default (f_task (req_form req)) in
  let mo := strip (default [] (f_model_override (req_form req))) in
  let s' := (index req s).2 in
  method req = POST →
  blank (default [] (f_input_text (req_form req))) = false →
  mo ≠ [] →
  pipelines s !! task = Some p →
  MODEL_CHOICES s' !! task = Some mo
  ∧ pipelines s' = pipelines s
  ∧ ∃ evs, trace s' = trace s ++ evs ∧ no_load evs = true
           ∧ ∀ q args, EvCall q args ∈ evs → q = p.
Proof.
  intros task mo s' Hpost Hin Hmo Hhit.
  assert (Htr : truthy mo = true) by by destruct mo.
  destruct (index_effect req s) as [Hm Hp]. fold task mo s' in Hm, Hp.
  destruct (index_events req s) as (evs & Ht & _ & _ & _ & Hnl & Hq).
  fold task s' in Ht, Hnl, Hq.
  assert (Hp' : pipelines s' = pipelines s).
  { destruct Hp as [Hp | (q & _ & Hnone & _)]; [done|congruence]. }
  split.
  { rewrite Hm. unfold overrides. rewrite Hpost, truthy_strip, Hin. fold mo task.
    rewrite Htr, bool_decide_eq_true_2 by done. apply lookup_insert_eq. }
  split; [done|]. exists evs. split; [done|]. split; [by apply Hnl; eexists|].
  intros q args Hev. apply Hq in Hev. rewrite Hp' in Hev. congruence.
Qed.

Lemma index_model_other (req : request) (s : state) (t : pystr) :
  overrides t req = false →
  MODEL_CHOICES (index req s).2 !! t = MODEL_CHOICES s !! t.
Proof.
  intros Hno. destruct (index_effect req s) as [-> _].
  destruct (overrides (task_or_default (f_task (req_form req))) req) eqn:Hov;
    [|done].
  rewrite lookup_insert_ne; [done|]. intros Heq.
  rewrite <- Heq in Hno. congruence.
Qed.

(** X6. A request changes [MODEL_CHOICES] at no key but the task it
    overrides: for every task that the request does not override (it is not
    a POST, or its input text or its override is empty once trimmed, or it
    selects another task), the entry after the request is the entry
    before it, present or absent. *)
Theorem model_table_frame (req : request) (s : state) (t : pystr) :
  overrides t req = false →
  MODEL_CHOICES (index req s).2 !! t = MODEL_CHOICES s !! t.
Proof. apply index_model_other. Qed.

Lemma init_models_ok : models_ok init.
Proof.
  intros t [-> | [-> | ->]]%supported_true; eexists;
    (split; [by vm_compute|]); by vm_compute.
Qed.

Lemma index_models_ok (req : request) (s : state) :
  models_ok s → models_ok (index req s).2.
Proof.
  intros Hok t Hsup. destruct (Hok t Hsup) as (m & Hm & Hne).
  destruct (overrides t req) eqn:Hov.
  - destruct (index_effect req s) as [-> _].
    unfold overrides in *. destruct (method req); try done.
    apply andb_true_iff in Hov as [[_ Hmo]%andb_true_iff Heq].
    apply bool_decide_eq_true in Heq. rewrite Heq in *.
    rewrite Hmo, bool_decide_eq_true_2, andb_true_r by done.
    destruct (truthy (strip (default [] (f_input_text (req_form req)))));
      simpl; [|by eauto].
    rewrite lookup_insert_eq. eexists. split; [done|].
    by destruct (strip (default [] (f_model_override (req_form req)))).
  - rewrite index_model_other by done. eauto.
Qed.

Lemma serve_models_ok (reqs : list request) (s : state) :
  models_ok s → models_ok (serve reqs s).
Proof.
  revert s. induction reqs as [|r reqs IH]; intros s Hok; simpl; [done|].
  by apply IH, index_models_ok.
Qed.

(** X7. Whatever requests were served since the start, [MODEL_CHOICES]
    holds a non-empty model name for each supported task; so a cache miss for
    a supported task never ends in "Unknown task": it attempts the
    construction, with the model name the table holds at that moment. *)
Theorem supported_task_always_has_model (reqs : list request) (t : pystr) :
  let s := serve reqs init in
  supported t = true →
  pipelines s !! t = None →
  ∃ m evs, m ≠ [] ∧ MODEL_CHOICES s !! t = Some m
           ∧ trace (get_pipeline t s).2 = trace s ++ evs
           ∧ EvLoad t m (Some (-1)%Z) ∈ evs.
Proof.
  intros s Hsup Hmiss.
  destruct (serve_models_ok reqs init init_models_ok t Hsup) as (m & Hm & Hne).
  destruct (get_pipeline_miss_events t m s) as (evs & Ht & Hev);
    try done; [by destruct m|].
  by exists m, evs.
Qed.

(** X20. A failed construction is not remembered: when [get_pipeline]
    raised for a supported task, the next call for that task attempts the
    construction again, in every state where the supported tasks have
    their model names. *)
Theorem failed_load_is_retried (t : pystr) (s s' : state) (e : exn) :
  supported t = true →
  models_ok s →
  get_pipeline t s = (Raise e, s') →
  ∃ m evs, MODEL_CHOICES s' !! t = Some m
           ∧ trace (get_pipeline t s').2 = trace s' ++ evs
           ∧ EvLoad t m (Some (-1)%Z) ∈ evs.
Proof.
  intros Hsup Hok Hgp.
  apply get_pipeline_raise in Hgp as (Hp & Hm & Hmiss & _).
  destruct (Hok t Hsup) as (m & Hmodel & Hne).
  destruct (get_pipeline_miss_events t m s') as (evs & Ht & Hev);
    try done; [congruence..|by destruct m|].
  exists m, evs. split; [congruence|done].
Qed.

(** X19. The first call for a supported task whose construction succeeds
    returns the new object and stores it under the task, so that a lookup
    finds it; [MODEL_CHOICES] is unchanged and the trace gains the call, the
    two log records and the construction with [device=-1]. *)
Theorem first_load_stores_pipeline (task model : pystr) (s : state) (p : Pipeline) :
  supported task = true →
  pipelines s !! task = None →
  MODEL_CHOICES s !! task = Some model →
  model ≠ [] →
  hf_pipeline (trace s ++ [EvGetPipeline (Some task);
                           EvLog INFO (loading_msg task model)])
    task model (Some (-1)%Z) = Ok p →
  get_pipeline task s
  = (Ok p, {| pipelines := <[task := p]> (pipelines s);
              MODEL_CHOICES := MODEL_CHOICES s;
              trace := trace s ++ [EvGetPipeline (Some task);
                                   EvLog INFO (loading_msg task model);
                                   EvLoad task model (Some (-1)%Z);
                                   EvLog INFO (lit "Pipeline loaded.")] |})
  ∧ pipelines (get_pipeline task s).2 !! task = Some p.
Proof.
  intros Hsup Hmiss Hmodel Hne Hload. apply supported_true in Hsup.
  assert (Hm : truthy model = true) by by destruct model.
  assert (Hgp : get_pipeline task s
    = (Ok p, {| pipelines := <[task := p]> (pipelines s);
                MODEL_CHOICES := MODEL_CHOICES s;
                trace := trace s ++ [EvGetPipeline (Some task);
                                     EvLog INFO (loading_msg task model);
                                     EvLoad task model (Some (-1)%Z);
                                     EvLog INFO (lit "Pipeline loaded.")] |})).
  { unfold get_pipeline, load, pipeline, cache_set, log, emit, loading_msg in *.
    munfold. simpl. rewrite Hmiss, Hmodel, Hm. simpl.
    repeat case_bool_decide; [..|destruct Hsup as [?|[?|?]]; congruence];
      subst task; rewrite <- !app_assoc; simpl; rewrite Hload; simpl;
      by rewrite <- ?app_assoc. }
  split; [done|]. rewrite Hgp. apply lookup_insert_eq.
Qed.

End ModelTable.

Lemma override_of_cached_task_is_stale_witness :
  Flask2.pipelines
    (Flask2.index (H:=obliging)
       (post (Some sentiment_analysis) (Some (lit "nice")) None (Some (lit "my/model")))
       (Flask2.get_pipeline (H:=obliging) sentiment_analysis Flask2.init).2).2
  = Flask2.pipelines (Flask2.get_pipeline (H:=obliging) sentiment_analysis Flask2.init).2.
Proof.
  apply (override_of_cached_task_is_stale (H:=obliging)
           (post (Some sentiment_analysis) (Some (lit "nice")) None
              (Some (lit "my/model")))
           (Flask2.get_pipeline (H:=obliging) sentiment_analysis Flask2.init).2
           2%nat);
    [reflexivity | reflexivity | discriminate | vm_compute; reflexivity].
Defined.

Lemma model_table_frame_witness :
  Flask2.MODEL_CHOICES
    (Flask2.index (H:=obliging)
       (post (Some summarization) (Some (lit "text")) None (Some (lit "my/model")))
       Flask2.init).2 !! sentiment_analysis
  = Flask2.MODEL_CHOICES (H:=obliging) Flask2.init !! sentiment_analysis.
Proof.
  apply (model_table_frame (H:=obliging)
           (post (Some summarization) (Some (lit "text")) None (Some (lit "my/model")))
           Flask2.init sentiment_analysis).
  vm_compute; reflexivity.
Defined.

Lemma supported_task_always_has_model_witness :
  ∃ m evs, m ≠ []
       ∧ Flask2.MODEL_CHOICES
           (Serve2.serve (H:=offline)
              [post (Some summarization) (Some (lit "text")) None
                 (Some (lit "my/model"))] Flask2.init) !! summarization = Some m
       ∧ Flask2.trace
           (Flask2.get_pipeline (H:=offline) summarization
              (Serve2.serve (H:=offline)
                 [post (Some summarization) (Some (lit "text")) None
                    (Some (lit "my/model"))] Flask2.init)).2
         = Flask2.trace
             (Serve2.serve (H:=offline)
                [post (Some summarization) (Some (lit "text")) None
                   (Some (lit "my/model"))] Flask2.init) ++ evs
       ∧ EvLoad summarization m (Some (-1)%Z) ∈ evs.
Proof.
  apply (supported_task_always_has_model (H:=offline)
           [post (Some summarization) (Some (lit "text")) None (Some (lit "my/model"))]
           summarization); vm_compute; reflexivity.
Defined.

Lemma failed_load_is_retried_witness :
  ∃ m evs,
    Flask2.MODEL_CHOICES
      (Flask2.get_pipeline (H:=offline) summarization Flask2.init).2 !! summarization
    = Some m
    ∧ Flask2.trace
        (Flask2.get_pipeline (H:=offline) summarization
           (Flask2.get_pipeline (H:=offline) summarization Flask2.init).2).2
      = Flask2.trace (Flask2.get_pipeline (H:=offline) summarization Flask2.init).2
        ++ evs
    ∧ EvLoad summarization m (Some (-1)%Z) ∈ evs.
Proof.
  apply (failed_load_is_retried (H:=offline) summarization Flask2.init
           (Flask2.get_pipeline (H:=offline) summarization Flask2.init).2
           (LibError "OSError" (lit "no network")));
    [vm_compute; reflexivity | apply init_models_ok | vm_compute; reflexivity].
Defined.

Lemma first_load_stores_pipeline_witness :
  Flask2.pipelines (Flask2.get_pipeline (H:=obliging) sentiment_analysis Flask2.init).2
    !! sentiment_analysis
  = Some 2%nat.
Proof.
  apply (first_load_stores_pipeline (H:=obliging) sentiment_analysis
           (lit "distilbert-base-uncased-finetuned-sst-2-english") Flask2.init 2%nat);
    [vm_compute; reflexivity | vm_compute; reflexivity | vm_compute; reflexivity
    | discriminate | vm_compute; reflexivity].
Defined.

(** ** Failing and succeeding requests, case by case *)

Section Cases.
Context `{Extern}.

Lemma default_models_lookup (t m : pystr) :
  Flask2.default_models !! t = Some m →
  (t = sentiment_analysis
   ∧ m = lit "distilbert-base-uncased-finetuned-sst-2-english")
  ∨ (t = summarization ∧ m = lit "sshleifer/distilbart-cnn-12-6")
  ∨ (t = zero_shot_classification ∧ m = lit "facebook/bart-large-mnli").
Proof.
  unfold Flask2.default_models. rewrite !lookup_insert, lookup_empty.
  repeat case_decide; intros [= <-]; subst; auto.
Qed.

(** A miss of the first variant, for a task with a model: one construction
    with that model, stored when it succeeds. *)
Lemma get_pipeline_miss1 (t m : pystr) (s : Flask1.state) :
  Flask1.pipelines_cache s !! Some t = None →
  Flask2.default_models !! t = Some m →
  Flask1.get_pipeline (Some t) s
  = match hf_pipeline (Flask1.trace s ++ [EvGetPipeline (Some t)]) t m None with
    | Ok p =>
        (Ok p, {| Flask1.pipelines_cache := <[Some t := p]> (Flask1.pipelines_cache s);
                  Flask1.trace := Flask1.trace s
                                    ++ [EvGetPipeline (Some t); EvLoad t m None] |})
    | Raise e =>
        (Raise e, {| Flask1.pipelines_cache := Flask1.pipelines_cache s;
                     Flask1.trace := Flask1.trace s
                                       ++ [EvGetPipeline (Some t); EvLoad t m None] |})
    end.
Proof.
  intros Hmiss Hm. destruct task_names_distinct as (H12 & H13 & H23).
  unfold Flask1.get_pipeline, Flask1.pipeline, Flask1.cache_set, Flask1.emit.
  munfold. simpl. rewrite Hmiss.
  apply default_models_lookup in Hm as [[-> ->] | [[-> ->] | [-> ->]]];
    repeat case_bool_decide; simplify_eq; try congruence;
    destruct (hf_pipeline _ _ _ _) as [p|e]; simpl;
    rewrite ?lookup_insert_eq, <- ?app_assoc; done.
Qed.

(** X8. In the first variant a POST request without a [task] field and
    with input text that is not whitespace-only ends with an uncaught
    [KeyError] for the key [None]; nothing is constructed, stored or
    invoked. The second variant would run sentiment-analysis instead. *)
Theorem flask1_missing_task_key_error (req : request) (s : Flask1.state) :
  method req = POST →
  f_task (req_form req) = None →
  blank (default [] (f_input_text (req_form req))) = false →
  Serve1.cache_ok s →
  Flask1.index req s
  = (Raise (KeyError None), Serve1.logged (EvGetPipeline None) s).
Proof.
  intros Hpost Htask Hin Hok.
  unfold Flask1.index. rewrite Hpost. cbv zeta. rewrite Htask.
  unfold mbind, M_bind. rewrite run_eq1, truthy_strip, Hin. simpl.
  destruct (Flask1.get_pipeline None s) as [[p|e] s'] eqn:Hgp.
  - apply get_pipeline_ok1 in Hgp
      as [(Hhit & _) | (_ & _ & t' & _ & Ht & _)]; [|done].
    by apply Hok in Hhit as (t' & Ht & _).
  - apply get_pipeline_raise1 in Hgp as (_ & _ & evs & _ & _ & Hun).
    by destruct Hun as [-> ->].
Qed.

(** X9. In the second variant, a request for a non-empty task outside the
    supported set, unknown to [MODEL_CHOICES] and without an override: the
    [try] block raises [ValueError] "Unknown task: " followed by the task;
    no dictionary changes and nothing but the call of [get_pipeline] is
    recorded. *)
Theorem unknown_task_message (t input labels : pystr) (s : Flask2.state) :
  supported t = false →
  Serve2.cache_ok s →
  Flask2.MODEL_CHOICES s !! t = None →
  Flask2.index_try t input labels [] s
  = (Raise (ValueError (lit "Unknown task: " ++ t)),
     Serve2.logged (EvGetPipeline (Some t)) s).
Proof.
  intros Hsup Hok Hmodel.
  assert (Hmiss : Flask2.pipelines s !! t = None).
  { destruct (Flask2.pipelines s !! t) eqn:Hp; [|done].
    apply Hok in Hp. congruence. }
  rewrite index_try_eq. unfold Serve2.after_override. simpl.
  unfold Flask2.get_pipeline, Serve2.logged, Flask2.emit. munfold. simpl.
  by rewrite Hmiss, Hmodel.
Qed.

(** X10. The same request with an override: the override is stored under
    the unsupported task, [get_pipeline] then finds a model name, logs the
    load, and raises [ValueError] "Unsupported task" without constructing
    anything; the failure is logged, and the junk entry stays in
    [MODEL_CHOICES]. *)
Theorem unknown_task_with_override (t input labels mo : pystr) (s : Flask2.state) :
  supported t = false →
  Serve2.cache_ok s →
  mo ≠ [] →
  Flask2.index_try t input labels mo s
  = (Raise (ValueError (lit "Unsupported task")),
     {| Flask2.pipelines := Flask2.pipelines s;
        Flask2.MODEL_CHOICES := <[t := mo]> (Flask2.MODEL_CHOICES s);
        Flask2.trace :=
          Flask2.trace s
            ++ [EvGetPipeline (Some t);
                EvLog INFO (Serve2.loading_msg t mo);
                EvLog ERROR (lit "Failed to load pipeline:" ++ newline
                               :: format_exc (ValueError (lit "Unsupported task")))] |}).
Proof.
  intros Hsup Hok Hmo.
  assert (Hmiss : Flask2.pipelines s !! t = None).
  { destruct (Flask2.pipelines s !! t) eqn:Hp; [|done].
    apply Hok in Hp. congruence. }
  apply supported_false in Hsup as (H1 & H2 & H3).
  assert (Htr : truthy mo = true) by by destruct mo.
  rewrite index_try_eq. unfold Serve2.after_override, Flask2.set_model.
  rewrite Htr. munfold. simpl.
  unfold Flask2.get_pipeline, Flask2.load, Flask2.pipeline, Flask2.log,
    Flask2.emit, Serve2.loading_msg.
  munfold. simpl. rewrite Hmiss, lookup_insert_eq, Htr. simpl.
  rewrite !bool_decide_eq_false_2 by done. simpl.
  by rewrite <- !app_assoc.
Qed.

End Cases.

Lemma flask1_missing_task_key_error_witness :
  Flask1.index (H:=obliging) (post None (Some (lit "hi")) None None) Flask1.init
  = (Raise (KeyError None),
     Serve1.logged (H:=obliging) (EvGetPipeline None) Flask1.init).
Proof.
  apply (flask1_missing_task_key_error (H:=obliging)
           (post None (Some (lit "hi")) None None) Flask1.init);
    [reflexivity | reflexivity | reflexivity | apply init_cache_ok1].
Defined.

Lemma unknown_task_message_witness :
  Flask2.index_try (H:=obliging) (lit "translation") (lit "hi") [] [] Flask2.init
  = (Raise (ValueError (lit "Unknown task: " ++ lit "translation")),
     Serve2.logged (H:=obliging) (EvGetPipeline (Some (lit "translation")))
       Flask2.init).
Proof.
  apply (unknown_task_message (H:=obliging) (lit "translation") (lit "hi") []
           Flask2.init);
    [vm_compute; reflexivity | apply init_cache_ok | vm_compute; reflexivity].
Defined.

Lemma unknown_task_with_override_witness :
  (Flask2.index_try (H:=obliging) (lit "translation") (lit "hi") [] (lit "t5-small")
     Flask2.init).1
  = Raise (ValueError (lit "Unsupported task")).
Proof.
  rewrite (unknown_task_with_override (H:=obliging) (lit "translation") (lit "hi") []
             (lit "t5-small") Flask2.init);
    [reflexivity | vm_compute; reflexivity | apply init_cache_ok | discriminate].
Defined.

(** ** Requests that reach the pipeline *)

Section Reaching.
Context `{Extern}.

(** X11. A request that got its pipeline keeps it in the cache whether the
    invocation then succeeds or raises, in both variants: after the request
    the cache holds, for the selected task, the object that [get_pipeline]
    returned. *)
Theorem pipeline_stays_cached (req : request) :
  let fm := req_form req in
  method req = POST →
  blank (default [] (f_input_text fm)) = false →
  (∀ (s s1 : Flask1.state) (p : Pipeline),
     Flask1.get_pipeline (f_task fm) s = (Ok p, s1) →
     Flask1.pipelines_cache (Flask1.index req s).2 !! f_task fm = Some p)
  ∧ (∀ (s s1 : Flask2.state) (p : Pipeline),
       Flask2.get_pipeline (Flask2.task_or_default (f_task fm))
         (Serve2.after_override (Flask2.task_or_default (f_task fm))
            (strip (default [] (f_model_override fm))) s) = (Ok p, s1) →
       Flask2.pipelines (Flask2.index req s).2
         !! Flask2.task_or_default (f_task fm) = Some p).
Proof.
  intros fm Hpost Hin. split; intros s s1 p Hgp.
  - unfold Flask1.index. rewrite Hpost. cbv zeta. fold fm.
    unfold mbind, M_bind. rewrite run_eq1, truthy_strip, Hin, Hgp. simpl.
    destruct (invoke_effect1 (f_task fm) (default [] (f_input_text fm))
                (default [] (f_labels fm)) p s1) as [Hp _].
    apply get_pipeline_stored1 in Hgp.
    destruct (Flask1.invoke _ _ _ p s1) as [[out|e] s2]; simpl in *;
      by rewrite Hp.
  - rewrite index_post2 by done. fold fm.
    rewrite run_try, index_try_eq, Hgp by (by rewrite truthy_strip, Hin).
    destruct (invoke_effect (Flask2.task_or_default (f_task fm))
                (strip (default [] (f_input_text fm)))
                (strip (default [] (f_labels fm))) p s1) as (Hp & _).
    apply get_pipeline_stored in Hgp.
    destruct (Flask2.invoke _ _ _ p s1) as [[out|e] s2]; simpl in *;
      by rewrite Hp.
Qed.

(** X12. When [get_pipeline] returns and the invocation returns [out], the
    request is answered with a page: it shows [out] as the result, and the
    submitted task, text and labels; the second variant shows no error and
    echoes the fields trimmed, the first variant echoes them as sent. The
    state is the one the invocation left. *)
Theorem successful_request_renders_result (req : request) :
  let fm := req_form req in
  method req = POST →
  blank (default [] (f_input_text fm)) = false →
  (∀ (s s1 s2 : Flask1.state) (p : Pipeline) (out : value Output),
     Flask1.get_pipeline (f_task fm) s = (Ok p, s1) →
     Flask1.invoke (f_task fm) (default [] (f_input_text fm))
       (default [] (f_labels fm)) p s1 = (Ok out, s2) →
     Flask1.index req s
     = (Ok (Flask1.render_template_string out (VStr (default [] (f_input_text fm)))
              (opt_value (f_task fm)) (VStr (default [] (f_labels fm)))), s2))
  ∧ (∀ (s s1 s2 : Flask2.state) (p : Pipeline) (out : value Output),
       Flask2.get_pipeline (Flask2.task_or_default (f_task fm))
         (Serve2.after_override (Flask2.task_or_default (f_task fm))
            (strip (default [] (f_model_override fm))) s) = (Ok p, s1) →
       Flask2.invoke (Flask2.task_or_default (f_task fm))
         (strip (default [] (f_input_text fm)))
         (strip (default [] (f_labels fm))) p s1 = (Ok out, s2) →
       Flask2.index req s
       = (Ok (Flask2.render_template_string out VNone
                (VStr (strip (default [] (f_input_text fm))))
                (VStr (Flask2.task_or_default (f_task fm)))
                (VStr (strip (default [] (f_labels fm))))
                (VStr (strip (default [] (f_model_override fm))))
                (VBool false)), s2)).
Proof.
  intros fm Hpost Hin. split; intros s s1 s2 p out Hgp Hinv.
  - unfold Flask1.index. rewrite Hpost. cbv zeta. fold fm.
    unfold mbind, M_bind. by rewrite run_eq1, truthy_strip, Hin, Hgp, Hinv.
  - rewrite index_post2 by done. fold fm.
    by rewrite run_try, index_try_eq, Hgp, Hinv by (by rewrite truthy_strip, Hin).
Qed.

(** X13. A summarization request whose pipeline is in the cache invokes
    that object with [min_length=20] and [do_sample=False] in both
    variants; the first variant passes the text as sent and
    [max_length=80], the second the trimmed text and [max_length=120]. *)
Theorem summarization_call_conventions (req : request) (p : Pipeline)
  (s1 : Flask1.state) (s2 : Flask2.state) :
  let input := default [] (f_input_text (req_form req)) in
  method req = POST →
  f_task (req_form req) = Some summarization →
  blank input = false →
  Flask1.pipelines_cache s1 !! Some summarization = Some p →
  Flask2.pipelines s2 !! summarization = Some p →
  EvCall p (Summarize input 80 20 false) ∈ Flask1.trace (Flask1.index req s1).2
  ∧ EvCall p (Summarize (strip input) 120 20 false)
      ∈ Flask2.trace (Flask2.index req s2).2.
Proof.
  intros input Hpost Htask Hin Hhit1 Hhit2.
  destruct task_names_distinct as (H12 & H13 & H23).
  assert (Htr : truthy (strip input) = true) by by rewrite truthy_strip, Hin.
  split.
  - unfold Flask1.index. rewrite Hpost. cbv zeta. fold input. rewrite Htask.
    unfold mbind, M_bind. rewrite run_eq1, Htr.
    rewrite (get_pipeline_hit1 _ _ _ Hhit1).
    unfold Flask1.invoke.
    rewrite bool_decide_eq_false_2, bool_decide_eq_true_2 by congruence.
    unfold Flask1.call, Serve1.logged, Flask1.emit. munfold. simpl.
    destruct (hf_call _ _ _); simpl; rewrite !elem_of_app, !list_elem_of_singleton;
      auto.
  - rewrite index_post2 by done. fold input. rewrite Htask.
    replace (Flask2.task_or_default (Some summarization)) with summarization
      by done.
    rewrite run_try, index_try_eq by done.
    rewrite (get_pipeline_hit summarization _ p)
      by by rewrite after_override_pipelines.
    unfold Flask2.invoke.
    rewrite bool_decide_eq_false_2, bool_decide_eq_true_2 by congruence.
    unfold Flask2.call, Serve2.logged, Flask2.emit. munfold. simpl.
    destruct (hf_call _ _ _); simpl; rewrite !elem_of_app, !list_elem_of_singleton;
      auto.
Qed.

(** X14. In the first variant, a request for a supported task that misses
    the cache constructs the pipeline with the model name that the second
    variant's default table gives the task; when the construction raises,
    the exception leaves the handler uncaught and the cache is as
    before. *)
Theorem flask1_construction_failure (req : request) (t m : pystr)
  (s : Flask1.state) (e : exn) :
  method req = POST →
  f_task (req_form req) = Some t →
  blank (default [] (f_input_text (req_form req))) = false →
  Flask2.default_models !! t = Some m →
  Flask1.pipelines_cache s !! Some t = None →
  hf_pipeline (Flask1.trace s ++ [EvGetPipeline (Some t)]) t m None = Raise e →
  Flask1.index req s
  = (Raise e, {| Flask1.pipelines_cache := Flask1.pipelines_cache s;
                 Flask1.trace := Flask1.trace s
                                   ++ [EvGetPipeline (Some t); EvLoad t m None] |}).
Proof.
  intros Hpost Htask Hin Hm Hmiss Hfail.
  unfold Flask1.index. rewrite Hpost. cbv zeta. rewrite Htask.
  unfold mbind, M_bind. rewrite run_eq1, truthy_strip, Hin. simpl.
  by rewrite (get_pipeline_miss1 t m), Hfail.
Qed.

End Reaching.

Lemma pipeline_stays_cached_witness :
  Flask2.pipelines
    (Flask2.index (H:=obliging)
       (post (Some zero_shot_classification) (Some (lit "soccer")) (Some []) None)
       Flask2.init).2 !! zero_shot_classification
  = Some 2%nat.
Proof.
  apply (proj2 (pipeline_stays_cached (H:=obliging)
                  (post (Some zero_shot_classification) (Some (lit "soccer"))
                     (Some []) None) eq_refl eq_refl)
           Flask2.init
           (Flask2.get_pipeline (H:=obliging) zero_shot_classification Flask2.init).2).
  vm_compute; reflexivity.
Defined.

Lemma successful_request_renders_result_witness :
  Flask2.index (H:=obliging)
    (post (Some sentiment_analysis) (Some (lit " I love this ")) None None) Flask2.init
  = (Ok (Flask2.render_template_string (H:=obliging) (VOut (lit "ok")) VNone
           (VStr (lit "I love this")) (VStr sentiment_analysis) (VStr []) (VStr [])
           (VBool false)),
     (Flask2.invoke (H:=obliging) sentiment_analysis (lit "I love this") [] 2%nat
        (Flask2.get_pipeline (H:=obliging) sentiment_analysis Flask2.init).2).2).
Proof.
  apply (proj2 (successful_request_renders_result (H:=obliging)
                  (post (Some sentiment_analysis) (Some (lit " I love this "))
                     None None) eq_refl eq_refl)
           Flask2.init
           (Flask2.get_pipeline (H:=obliging) sentiment_analysis Flask2.init).2
           _ 2%nat (VOut (lit "ok")));
    vm_compute; reflexivity.
Defined.

Lemma summarization_call_conventions_witness :
  EvCall 1%nat (Summarize (lit " a long text ") 80 20 false)
    ∈ Flask1.trace
        (Flask1.index (H:=obliging)
           (post (Some summarization) (Some (lit " a long text ")) None None)
           (Flask1.get_pipeline (H:=obliging) (Some summarization) Flask1.init).2).2.
Proof.
  apply (summarization_call_conventions (H:=obliging)
           (post (Some summarization) (Some (lit " a long text ")) None None) 1%nat
           (Flask1.get_pipeline (H:=obliging) (Some summarization) Flask1.init).2
           {| Flask2.pipelines := {[summarization := 1%nat]};
              Flask2.MODEL_CHOICES := Flask2.default_models;
              Flask2.trace := [] |});
    vm_compute; reflexivity.
Defined.

Lemma flask1_construction_failure_witness :
  Flask1.index (H:=offline)
    (post (Some summarization) (Some (lit "a long text")) None None) Flask1.init
  = (Raise (LibError "OSError" (lit "no network")),
     {| Flask1.pipelines_cache := ∅;
        Flask1.trace := [EvGetPipeline (Some summarization);
                         EvLoad summarization (lit "sshleifer/distilbart-cnn-12-6")
                           None] |}).
Proof.
  apply (flask1_construction_failure (H:=offline)
           (post (Some summarization) (Some (lit "a long text")) None None)
           summarization (lit "sshleifer/distilbart-cnn-12-6") Flask1.init);
    vm_compute; reflexivity.
Defined.

(** ** Trimming and the labels field *)

Section Trimming.
Implicit Types (s f : pystr) (c : N).

Lemma lstrip_fixed s : (∀ c r, s = c :: r → isspace c = false) → lstrip s = s.
Proof.
  destruct s as [|c r]; simpl; [done|]. intros Hh. by rewrite (Hh c r).
Qed.

Lemma rstrip_fixed s : isspace <$> last s ≠ Some true → rstrip s = s.
Proof.
  intros Hl. unfold rstrip. rewrite lstrip_fixed; [apply rev_involutive|].
  intros c r Hrev. apply (f_equal (@rev N)) in Hrev.
  rewrite rev_involutive in Hrev. simpl in Hrev. subst s.
  rewrite last_snoc in Hl. simpl in Hl. destruct (isspace c); congruence.
Qed.

Lemma strip_idemp s : strip (strip s) = strip s.
Proof.
  unfold strip at 1. rewrite (lstrip_fixed (strip s)).
  - apply rstrip_fixed, strip_last.
  - intros c r Hs. by apply strip_head in Hs.
Qed.

Lemma split_app_sep sep f s : sep ∉ f → split sep (f ++ sep :: s) = f :: split sep s.
Proof.
  induction f as [|c r IH]; simpl; intros Hf.
  - by rewrite N.eqb_refl.
  - apply not_elem_of_cons in Hf as [Hc Hr].
    destruct (N.eqb_spec c sep) as [->|_]; [done|]. by rewrite IH.
Qed.

Lemma split_join sep (ls : list pystr) :
  ls ≠ [] → Forall (λ l, sep ∉ l) ls → split sep (join sep ls) = ls.
Proof.
  induction ls as [|f fs IH]; [done|]. intros _ Hall.
  apply Forall_cons in Hall as [Hf Hfs].
  destruct fs as [|g gs]; simpl.
  - by apply split_without_sep.
  - rewrite split_app_sep by done. f_equal. by apply IH.
Qed.

(** X15. Writing labels out and reading them back: for labels that are
    non-empty, hold no comma and have no whitespace at their ends, the
    labels parsed from their comma-separated string are those labels, in
    order and with repetitions. *)
Theorem parse_labels_join (ls : list pystr) :
  Forall (λ l, l ≠ [] ∧ strip l = l ∧ comma ∉ l) ls →
  parse_labels (join comma ls) = ls.
Proof.
  intros Hall. destruct ls as [|f fs]; [done|].
  unfold parse_labels. rewrite split_join; [|done|].
  - induction Hall as [|l ls (Hne & Hs & _) _ IH]; [done|].
    simpl. rewrite Hs, IH. by destruct l.
  - eapply Forall_impl; [done|]. by intros l (_ & _ & ?).
Qed.

(** X16. Every label handed to the pipeline is already trimmed: trimming
    it again changes nothing, so it neither starts nor ends with
    whitespace. *)
Theorem parsed_labels_trimmed (raw : pystr) :
  Forall (λ l, strip l = l ∧ isspace <$> head l ≠ Some true
               ∧ isspace <$> last l ≠ Some true) (parse_labels raw).
Proof.
  apply Forall_forall. intros l (Hne & f & _ & ->)%parse_labels_elem.
  split; [apply strip_idemp|]. split; [|apply strip_last].
  destruct (strip f) as [|c r] eqn:Hs; [done|].
  apply strip_head in Hs. simpl. congruence.
Qed.

End Trimming.

Section Fields.
Context `{Extern}.

Lemma strip_default_strip (o : option pystr) :
  strip (default [] (strip <$> o)) = strip (default [] o).
Proof. destruct o; simpl; [apply strip_idemp|done]. Qed.

(** X17. The second variant does not see whitespace around its text
    fields: a request with [input_text], [labels] and [model_override]
    already trimmed gets the same response and leaves the same state as the
    request as sent. *)
Theorem flask2_ignores_surrounding_whitespace (req : request) (s : Flask2.state) :
  Flask2.index (strip_fields req) s = Flask2.index req s.
Proof.
  unfold Flask2.index, strip_fields. simpl.
  by rewrite !strip_default_strip.
Qed.

(** X18. The labels field matters to zero-shot classification only: for
    any other task, in both variants, a request with other labels leaves
    the same state and gets the same response apart from the labels echoed
    in the form. *)
Theorem labels_ignored_by_other_tasks (req : request) (l : option pystr)
  (s1 : Flask1.state) (s2 : Flask2.state) :
  f_task (req_form req) ≠ Some zero_shot_classification →
  ((Flask1.index (set_labels l req) s1).2 = (Flask1.index req s1).2
   ∧ outcome_map (page_without "candidate_labels")
       (Flask1.index (set_labels l req) s1).1
     = outcome_map (page_without "candidate_labels") (Flask1.index req s1).1)
  ∧ ((Flask2.index (set_labels l req) s2).2 = (Flask2.index req s2).2
     ∧ outcome_map (page_without "candidate_labels")
         (Flask2.index (set_labels l req) s2).1
       = outcome_map (page_without "candidate_labels") (Flask2.index req s2).1).
Proof.
  intros Htask. split.
  - unfold Flask1.index, set_labels. simpl.
    destruct (method req); [done..|]. unfold mbind, M_bind.
    rewrite !run_eq1. destruct (truthy _); [|done].
    destruct (Flask1.get_pipeline _ s1) as [[p|e] s'] ; [|done].
    unfold Flask1.invoke. rewrite (bool_decide_eq_false_2 (_ = Some zero_shot_classification))
      by done.
    repeat case_bool_decide;
      try (destruct (Flask1.call _ _ _) as [[out|e] s'']); done.
  - assert (Hzs : Flask2.task_or_default (f_task (req_form req))
                  ≠ zero_shot_classification).
    { destruct (f_task (req_form req)) as [[|c t]|] eqn:Ht; simpl;
        destruct task_names_distinct as (_ & ? & _); congruence. }
    unfold Flask2.index, set_labels. simpl.
    destruct (method req); [done..|]. unfold mbind, M_bind.
    destruct (truthy (strip (default [] (f_input_text (req_form req))))) eqn:Hin;
      [|by rewrite !run_blank].
    rewrite !run_try, !index_try_eq by done.
    destruct (Flask2.get_pipeline _ _) as [[p|e] s'] ; [|done].
    unfold Flask2.invoke. rewrite (bool_decide_eq_false_2 (_ = zero_shot_classification))
      by done.
    repeat case_bool_decide;
      try (destruct (Flask2.call _ _ _) as [[out|e] s'']); done.
Qed.

End Fields.

Lemma parse_labels_join_witness :
  parse_labels (join comma [lit "sports"; lit "world politics"; lit "sports"])
  = [lit "sports"; lit "world politics"; lit "sports"].
Proof.
  apply (parse_labels_join [lit "sports"; lit "world politics"; lit "sports"]).
  apply (bool_decide_unpack _). by vm_compute.
Defined.

Lemma labels_ignored_by_other_tasks_witness :
  (Flask2.index (H:=obliging)
     (set_labels (Some (lit "a,b"))
        (post (Some sentiment_analysis) (Some (lit "nice")) None None))
     Flask2.init).2
  = (Flask2.index (H:=obliging)
       (post (Some sentiment_analysis) (Some (lit "nice")) None None) Flask2.init).2.
Proof.
  apply (labels_ignored_by_other_tasks (H:=obliging)
           (post (Some sentiment_analysis) (Some (lit "nice")) None None)
           (Some (lit "a,b")) Flask1.init Flask2.init).
  vm_compute. discriminate.
Defined.

(** ** The default task of the second variant *)

Section DefaultTask.
Context `{Extern}.
Import Flask2 Serve2.

(** The first thing [get_pipeline] leaves in the trace is its own call. *)
Lemma get_pipeline_first_event task s :
  ∃ evs, trace (get_pipeline task s).2 = trace s ++ EvGetPipeline (Some task) :: evs.
Proof.
  unfold get_pipeline, load, pipeline, cache_set, log, emit. munfold. simpl.
  mcases; rewrite <- ?app_assoc; simpl; by eexists.
Qed.

(** A POST request with input text that is not whitespace-only calls
    [get_pipeline] with the selected task before anything else. *)
Lemma index_calls_get_pipeline (req : request) (s : state) :
  method req = POST →
  blank (default [] (f_input_text (req_form req))) = false →
  ∃ evs, trace (index req s).2
         = trace s ++ EvGetPipeline (Some (task_or_default (f_task (req_form req))))
                        :: evs.
Proof.
  intros Hpost Hin. rewrite index_post2 by done.
  rewrite run_try, index_try_eq by (by rewrite truthy_strip, Hin).
  destruct (get_pipeline_first_event (task_or_default (f_task (req_form req)))
              (after_override (task_or_default (f_task (req_form req)))
                 (strip (default [] (f_model_override (req_form req)))) s))
    as (evs1 & Ht1).
  rewrite after_override_trace in Ht1.
  destruct (get_pipeline _ _) as [[p|e] s1]; simpl in Ht1.
  - destruct (invoke_events (task_or_default (f_task (req_form req)))
                (strip (default [] (f_input_text (req_form req))))
                (strip (default [] (f_labels (req_form req)))) p s1)
      as (evs2 & Ht2 & _).
    destruct (invoke _ _ _ p s1) as [[out|e] s2]; simpl in *;
      rewrite Ht2, Ht1, <- ?app_assoc; simpl; by eexists.
  - simpl. rewrite Ht1, <- app_assoc. simpl. by eexists.
Qed.

(** A sentiment request that hits the cache invokes the cached object with
    the trimmed text alone, right after the call of [get_pipeline]. *)
Lemma sentiment_hit_events (req : request) (s : state) (p : Pipeline) :
  method req = POST →
  task_or_default (f_task (req_form req)) = sentiment_analysis →
  blank (default [] (f_input_text (req_form req))) = false →
  pipelines s !! sentiment_analysis = Some p →
  ∃ evs, trace (index req s).2
         = trace s ++ EvGetPipeline (Some sentiment_analysis)
             :: EvCall p (Plain (strip (default [] (f_input_text (req_form req)))))
             :: evs.
Proof.
  intros Hpost Htask Hin Hhit. rewrite index_post2 by done. rewrite Htask.
  rewrite run_try, index_try_eq by (by rewrite truthy_strip, Hin).
  rewrite (get_pipeline_hit sentiment_analysis _ p)
    by by rewrite after_override_pipelines.
  unfold invoke. rewrite bool_decide_eq_true_2 by done.
  unfold call, logged, emit. munfold. simpl. rewrite after_override_trace.
  destruct (hf_call _ _ _); simpl; rewrite <- ?app_assoc; simpl; by eexists.
Qed.

(** C9. In the second variant, a POST request whose [task] field is missing
    or empty is handled as a request for "sentiment-analysis", not refused:
    it runs exactly as the same request with that task; the selected task
    is "sentiment-analysis", which is what every page it gets shows; when
    its input text is not whitespace-only, [get_pipeline] is called with
    "sentiment-analysis", and a cached sentiment pipeline is then invoked
    with the trimmed text alone. *)
Theorem missing_task_is_sentiment (req : request) (s : state) :
  method req = POST →
  f_task (req_form req) = None ∨ f_task (req_form req) = Some [] →
  index req s = index (set_task (Some sentiment_analysis) req) s
  ∧ task_or_default (f_task (req_form req)) = sentiment_analysis
  ∧ (∀ pg s', index req s = (Ok pg, s') →
       ctx_get "selected_task" pg = Some (VStr sentiment_analysis))
  ∧ (blank (default [] (f_input_text (req_form req))) = false →
     (∃ evs, trace (index req s).2
             = trace s ++ EvGetPipeline (Some sentiment_analysis) :: evs)
     ∧ ∀ p, pipelines s !! sentiment_analysis = Some p →
         ∃ evs, trace (index req s).2
                = trace s ++ EvGetPipeline (Some sentiment_analysis)
                    :: EvCall p
                         (Plain (strip (default [] (f_input_text (req_form req)))))
                    :: evs).
Proof.
  intros Hpost Htask.
  assert (Hdef : task_or_default (f_task (req_form req)) = sentiment_analysis)
    by by destruct Htask as [-> | ->].
  split; [|split; [done|split]].
  - unfold index. simpl. rewrite Hpost. by destruct Htask as [-> | ->].
  - intros pg s'. rewrite index_post2 by done. rewrite Hdef.
    destruct (run _ _ _ _ s) as [[re|e] s1]; [|done].
    by intros [= <- _].
  - intros Hin. split.
    + destruct (index_calls_get_pipeline req s Hpost Hin) as (evs & Ht).
      rewrite Hdef in Ht. by exists evs.
    + intros p Hhit. by apply sentiment_hit_events.
Qed.

End DefaultTask.

Lemma missing_task_is_sentiment_witness :
  Flask2.index (H:=obliging) (post None (Some (lit "I love this")) None None) Flask2.init
  = Flask2.index (H:=obliging)
      (post (Some sentiment_analysis) (Some (lit "I love this")) None None) Flask2.init
  ∧ ∃ evs,
      Flask2.trace
        (Flask2.index (H:=obliging) (post None (Some (lit "I love this")) None None)
           Flask2.init).2
      = Flask2.trace (H:=obliging) Flask2.init
          ++ EvGetPipeline (Some sentiment_analysis) :: evs.
Proof.
  split.
  - apply (missing_task_is_sentiment (H:=obliging)
             (post None (Some (lit "I love this")) None None) Flask2.init);
      [reflexivity | by left].
  - apply (missing_task_is_sentiment (H:=obliging)
             (post None (Some (lit "I love this")) None None) Flask2.init);
      [reflexivity | by left | reflexivity].
Defined.
